(** * Detection overlay renderer: a shallow embedding and its properties

    The development follows [src/components/DetectionCanvas.tsx] (the
    [DetectionCanvas] component: image loading effect and the [draw]
    callback) and [generateMockDetections] of [src/App.tsx].

    Modelling conventions.
    - A JavaScript [number] is modelled as an exact rational ([Q]); the
      rounding of IEEE-754 double arithmetic is outside the model.  DOM
      attributes that are integers ([clientWidth], [naturalWidth],
      [naturalHeight], the canvas [width] and [height]) are [Z].
    - The DOM objects reached through the two React refs form the state
      that [draw] mutates; [draw] is a program in a state-and-exception
      monad over that state.  A property access or method call on a
      [null] handle raises [TypeError], as it does in JavaScript.
    - The content of the canvas bitmap is the chronological list of paint
      operations applied since the bitmap was last cleared, each with the
      style it was issued with.  Module [Raster] gives that list its
      meaning as colours at sample points (source-over compositing). *)

From Stdlib Require Import ZArith QArith Qround Bool List String Ascii Lia Lqa.
From Stdlib Require Import Permutation.
Import ListNotations.

Local Open Scope Z_scope.
Local Open Scope Q_scope.

(** ** Data model *)

(** [BoundingBox = [number, number, number, number]], i.e. [x1, y1, x2, y2]. *)
Definition BoundingBox : Type := (Q * Q * Q * Q)%type.

(** A straight-alpha colour: channels on the 0..255 scale, alpha in [0,1]. *)
Record RGBA : Type := mkRGBA { red : Q; green : Q; blue : Q; alpha : Q }.

(** The CSS colour literals the code uses: ['#rrggbb'] and ['rgba(r,g,b,a)']. *)
Inductive Color : Type :=
| Hex (digits : string)
| Rgba (r g b : Z) (a : Q).

(** A decoded [HTMLImageElement]: its [src], natural size and pixels. *)
Record Image : Type := mkImage {
  src : string;
  naturalWidth : Z;
  naturalHeight : Z;
  bitmap : Z -> Z -> RGBA
}.

Inductive LineJoin : Type := Miter | Round | Bevel.

(** The part of the 2D context's drawing state that [draw] touches. *)
Record Ctx2D : Type := mkCtx2D {
  strokeStyle : Color;
  fillStyle : Color;
  lineWidth : Q;
  lineJoin : LineJoin
}.

(** Paint operations, with the drawing state they were issued under. *)
Inductive PaintOp : Type :=
| DrawImage (img : Image) (dx dy dw dh : Q)
| StrokeRect (style : Color) (lw : Q) (join : LineJoin) (x y w h : Q)
| FillRect (style : Color) (x y w h : Q).

(** A canvas either has no context yet, has a 2D context, or is bound to a
    context of another kind (then [getContext('2d')] answers [null]). *)
Inductive ContextMode : Type :=
| NoContext
| Context2D (st : Ctx2D)
| OtherContext.

Record Canvas : Type := mkCanvas {
  canvas_width : Z;
  canvas_height : Z;
  mode : ContextMode;
  painted : list PaintOp
}.

Record Container : Type := mkContainer { clientWidth : Z }.

(** What the two refs of the component point to.  [None] is a [null]
    [current]. *)
Record DOM : Type := mkDOM {
  canvasRef : option Canvas;
  containerRef : option Container
}.

(** ** Colours *)

Definition hex_digit (c : ascii) : option Z :=
  let n := Z.of_nat (nat_of_ascii c) in
  if ((48 <=? n) && (n <=? 57))%Z then Some (n - 48)%Z
  else if ((97 <=? n) && (n <=? 102))%Z then Some (n - 87)%Z
  else if ((65 <=? n) && (n <=? 70))%Z then Some (n - 55)%Z
  else None.

Definition hex_byte (hi lo : ascii) : option Z :=
  match hex_digit hi, hex_digit lo with
  | Some h, Some l => Some (16 * h + l)%Z
  | _, _ => None
  end.

(** The colour a literal denotes; [None] for a string that is no colour. *)
Definition resolve (c : Color) : option RGBA :=
  match c with
  | Hex (String r1 (String r2 (String g1 (String g2
         (String b1 (String b2 EmptyString)))))) =>
      match hex_byte r1 r2, hex_byte g1 g2, hex_byte b1 b2 with
      | Some r, Some g, Some b =>
          Some (mkRGBA (inject_Z r) (inject_Z g) (inject_Z b) 1)
      | _, _, _ => None
      end
  | Hex _ => None
  | Rgba r g b a =>
      Some (mkRGBA (inject_Z r) (inject_Z g) (inject_Z b) a)
  end.

Definition valid_color (c : Color) : bool :=
  match resolve c with Some _ => true | None => false end.

(** ** The platform: canvas attributes and the 2D context *)

(** Integer part of a number (rounding toward zero). *)
Definition IntegerPart (q : Q) : Z :=
  if Qle_bool 0 q then Qfloor q else Qceiling q.

(** WebIDL conversion of a number to [unsigned long]: integer part, then
    reduction modulo 2^32. *)
Definition to_unsigned_long (q : Q) : Z :=
  (IntegerPart q mod 2 ^ 32)%Z.

(** Setter of an [unsigned long] attribute that reflects a non-negative
    integer content attribute: a value above 2^31-1 is replaced by the
    attribute's default. *)
Definition reflect_dimension (default : Z) (q : Q) : Z :=
  let n := to_unsigned_long q in
  if (n <=? 2147483647)%Z then n else default.

Definition default_ctx : Ctx2D :=
  mkCtx2D (Hex "000000") (Hex "000000") 1 Miter.

(** Setting either dimension resets the context to its default state and
    clears the bitmap. *)
Definition reset_mode (m : ContextMode) : ContextMode :=
  match m with
  | Context2D _ => Context2D default_ctx
  | other => other
  end.

Definition assign_width (q : Q) (cv : Canvas) : Canvas :=
  mkCanvas (reflect_dimension 300 q) (canvas_height cv)
           (reset_mode (mode cv)) [].

Definition assign_height (q : Q) (cv : Canvas) : Canvas :=
  mkCanvas (canvas_width cv) (reflect_dimension 150 q)
           (reset_mode (mode cv)) [].

(** ** The monad of [draw]: state [DOM], exception [TypeError] *)

Inductive JsError : Type := TypeError.

Inductive Outcome (A : Type) : Type :=
| Returned (a : A)
| Thrown (e : JsError).
Arguments Returned {A} a.
Arguments Thrown {A} e.

Definition Op (A : Type) : Type := DOM -> Outcome (A * DOM).

Definition ret {A : Type} (a : A) : Op A := fun dom => Returned (a, dom).

Definition bind {A B : Type} (m : Op A) (k : A -> Op B) : Op B :=
  fun dom =>
    match m dom with
    | Returned (a, dom') => k a dom'
    | Thrown e => Thrown e
    end.

Notation "x <- m ;; k" := (bind m (fun x => k))
  (at level 61, m at next level, right associativity).
Notation "m ;;; k" := (bind m (fun _ => k))
  (at level 61, right associativity).

Fixpoint forEach {A : Type} (l : list A) (f : A -> Op unit) : Op unit :=
  match l with
  | [] => ret tt
  | a :: rest => f a ;;; forEach rest f
  end.

(** Reading [ref.current] never throws. *)
Definition current {A : Type} (ref : DOM -> option A) : Op (option A) :=
  fun dom => Returned (ref dom, dom).

Definition isNull {A : Type} (o : option A) : bool :=
  match o with Some _ => false | None => true end.

(** A read of, and an update to, the canvas element; on a [null] canvas
    both raise. *)
Definition canvas_get {A : Type} (f : Canvas -> A) : Op A :=
  fun dom =>
    match canvasRef dom with
    | Some cv => Returned (f cv, dom)
    | None => Thrown TypeError
    end.

Definition canvas_update (f : Canvas -> Canvas) : Op unit :=
  fun dom =>
    match canvasRef dom with
    | Some cv => Returned (tt, mkDOM (Some (f cv)) (containerRef dom))
    | None => Thrown TypeError
    end.

Definition container_clientWidth : Op Z :=
  fun dom =>
    match containerRef dom with
    | Some ct => Returned (clientWidth ct, dom)
    | None => Thrown TypeError
    end.

(** Property reads on the image state [imageObj]. *)
Definition image_get {A : Type} (imageObj : option Image) (f : Image -> A)
  : Op A :=
  fun dom =>
    match imageObj with
    | Some img => Returned (f img, dom)
    | None => Thrown TypeError
    end.

(** [canvas.getContext('2d')]: [true] when the answer is a context, [false]
    when it is [null]. *)
Definition getContext2d : Op bool :=
  fun dom =>
    match canvasRef dom with
    | None => Thrown TypeError
    | Some cv =>
        match mode cv with
        | NoContext =>
            Returned (true,
                      mkDOM (Some (mkCanvas (canvas_width cv) (canvas_height cv)
                                            (Context2D default_ctx) (painted cv)))
                            (containerRef dom))
        | Context2D _ => Returned (true, dom)
        | OtherContext => Returned (false, dom)
        end
    end.

(** A call on the context handle [ctx]; without a 2D context the handle is
    [null] and the call raises. *)
Definition ctx_call (f : Ctx2D -> Canvas -> Canvas) : Op unit :=
  fun dom =>
    match canvasRef dom with
    | Some cv =>
        match mode cv with
        | Context2D st =>
            Returned (tt, mkDOM (Some (f st cv)) (containerRef dom))
        | _ => Thrown TypeError
        end
    | None => Thrown TypeError
    end.

Definition with_state (st : Ctx2D) (cv : Canvas) : Canvas :=
  mkCanvas (canvas_width cv) (canvas_height cv) (Context2D st) (painted cv).

Definition emit (op : PaintOp) (cv : Canvas) : Canvas :=
  mkCanvas (canvas_width cv) (canvas_height cv) (mode cv) (painted cv ++ [op]).

(** The style setters ignore a value that is not a colour; [lineWidth]
    ignores a value that is not positive. *)
Definition set_strokeStyle (c : Color) : Op unit :=
  ctx_call (fun st cv =>
    if valid_color c
    then with_state (mkCtx2D c (fillStyle st) (lineWidth st) (lineJoin st)) cv
    else cv).

Definition set_fillStyle (c : Color) : Op unit :=
  ctx_call (fun st cv =>
    if valid_color c
    then with_state (mkCtx2D (strokeStyle st) c (lineWidth st) (lineJoin st)) cv
    else cv).

Definition set_lineWidth (v : Q) : Op unit :=
  ctx_call (fun st cv =>
    if Qle_bool v 0 then cv
    else with_state (mkCtx2D (strokeStyle st) (fillStyle st) v (lineJoin st)) cv).

Definition set_lineJoin (j : LineJoin) : Op unit :=
  ctx_call (fun st cv =>
    with_state (mkCtx2D (strokeStyle st) (fillStyle st) (lineWidth st) j) cv).

Definition drawImage (img : Image) (dx dy dw dh : Q) : Op unit :=
  ctx_call (fun _ cv => emit (DrawImage img dx dy dw dh) cv).

Definition strokeRect (x y w h : Q) : Op unit :=
  ctx_call (fun st cv =>
    emit (StrokeRect (strokeStyle st) (lineWidth st) (lineJoin st) x y w h) cv).

Definition fillRect (x y w h : Q) : Op unit :=
  ctx_call (fun st cv => emit (FillRect (fillStyle st) x y w h) cv).

(** ** [draw] (DetectionCanvas.tsx, lines 21-63) *)

(** The body of the [forEach] callback, lines 45-62. *)
Definition draw_box (scaleFactor : Q) (b : BoundingBox) : Op unit :=
  let '(x1, y1, x2, y2) := b in
  let width := (x2 - x1) * scaleFactor in
  let height := (y2 - y1) * scaleFactor in
  set_strokeStyle (Rgba 0 0 0 (1 # 2)) ;;;
  set_lineWidth 5 ;;;
  strokeRect (x1 * scaleFactor) (y1 * scaleFactor) width height ;;;
  set_strokeStyle (Hex "4ade80") ;;;
  set_lineWidth 2 ;;;
  strokeRect (x1 * scaleFactor) (y1 * scaleFactor) width height ;;;
  set_fillStyle (Rgba 74 222 128 (15 # 100)) ;;;
  fillRect (x1 * scaleFactor) (y1 * scaleFactor) width height.

Definition draw (imageObj : option Image) (detections : list BoundingBox)
  : Op unit :=
  canvas <- current canvasRef ;;
  container <- current containerRef ;;
  if isNull canvas || isNull container || isNull imageObj then ret tt else
  ctx <- getContext2d ;;
  if negb ctx then ret tt else
  clientW <- container_clientWidth ;;
  naturalW <- image_get imageObj naturalWidth ;;
  naturalH <- image_get imageObj naturalHeight ;;
  let containerWidth := inject_Z clientW in
  let scaleFactor := containerWidth / inject_Z naturalW in
  let displayHeight := inject_Z naturalH * scaleFactor in
  canvas_update (assign_width containerWidth) ;;;
  canvas_update (assign_height displayHeight) ;;;
  img <- image_get imageObj (fun i => i) ;;
  w <- canvas_get canvas_width ;;
  h <- canvas_get canvas_height ;;
  drawImage img 0 0 (inject_Z w) (inject_Z h) ;;;
  set_strokeStyle (Hex "22c55e") ;;;
  set_lineWidth 3 ;;;
  set_lineJoin Round ;;;
  forEach detections (draw_box scaleFactor).

(** ** The frame [draw] leaves behind *)

Definition shadow_style : Color := Rgba 0 0 0 (1 # 2).
Definition highlight_style : Color := Hex "4ade80".
Definition fill_style : Color := Rgba 74 222 128 (15 # 100).

(** The rectangle a box is mapped to: origin and size. *)
Definition scaled_rect (s : Q) (b : BoundingBox) : Q * Q * Q * Q :=
  let '(x1, y1, x2, y2) := b in
  (x1 * s, y1 * s, (x2 - x1) * s, (y2 - y1) * s).

(** The three paint operations of one box, in the order they are issued. *)
Definition box_layers (s : Q) (b : BoundingBox) : list PaintOp :=
  let '(x, y, w, h) := scaled_rect s b in
  [ StrokeRect shadow_style 5 Round x y w h;
    StrokeRect highlight_style 2 Round x y w h;
    FillRect fill_style x y w h ].

Definition scale_of (img : Image) (ct : Container) : Q :=
  inject_Z (clientWidth ct) / inject_Z (naturalWidth img).

Definition surface_width (ct : Container) : Z :=
  reflect_dimension 300 (inject_Z (clientWidth ct)).

Definition surface_height (img : Image) (ct : Container) : Z :=
  reflect_dimension 150 (inject_Z (naturalHeight img) * scale_of img ct).

(** Context state once the boxes are drawn. *)
Definition state_after (detections : list BoundingBox) (st : Ctx2D) : Ctx2D :=
  match detections with
  | [] => st
  | _ :: _ => mkCtx2D highlight_style fill_style 2 (lineJoin st)
  end.

Definition frame (img : Image) (ct : Container)
           (detections : list BoundingBox) : Canvas :=
  mkCanvas (surface_width ct) (surface_height img ct)
    (Context2D (state_after detections
                  (mkCtx2D (Hex "22c55e") (Hex "000000") 3 Round)))
    (DrawImage img 0 0 (inject_Z (surface_width ct))
               (inject_Z (surface_height img ct))
       :: flat_map (box_layers (scale_of img ct)) detections).

(** Whether [getContext('2d')] would answer a context. *)
Definition has_2d (cv : Canvas) : bool :=
  match mode cv with OtherContext => false | _ => true end.

(** ** The bitmap as colours: what a list of paint operations shows

    Colours are composited in premultiplied form with the default
    [source-over] operator.  Coverage is ideal (a sample point is covered or
    not; no anti-aliasing) and images are sampled at the nearest pixel. *)
Module Raster.

Definition Point : Type := (Q * Q)%type.

Definition transparent : RGBA := mkRGBA 0 0 0 0.

Definition premultiply (c : RGBA) : RGBA :=
  mkRGBA (red c * alpha c) (green c * alpha c) (blue c * alpha c) (alpha c).

(** Source [s] over destination [d], both premultiplied. *)
Definition over (s d : RGBA) : RGBA :=
  mkRGBA (red s + red d * (1 - alpha s))
         (green s + green d * (1 - alpha s))
         (blue s + blue d * (1 - alpha s))
         (alpha s + alpha d * (1 - alpha s)).

Definition style_color (c : Color) : RGBA :=
  match resolve c with
  | Some rgba => premultiply rgba
  | None => transparent
  end.

Definition qmin (a b : Q) : Q := if Qle_bool a b then a else b.
Definition qmax (a b : Q) : Q := if Qle_bool a b then b else a.
Definition qlt_bool (a b : Q) : bool := negb (Qle_bool b a).

(** The interior of the rectangle with corner [(x, y)] and size [(w, h)];
    either size may be negative. *)
Definition inside (x y w h : Q) (p : Point) : bool :=
  let '(px, py) := p in
  Qle_bool (qmin x (x + w)) px && qlt_bool px (qmax x (x + w)) &&
  Qle_bool (qmin y (y + h)) py && qlt_bool py (qmax y (y + h)).

(** [fillRect] paints nothing when a side is zero. *)
Definition fill_covers (x y w h : Q) (p : Point) : bool :=
  if Qeq_bool w 0 || Qeq_bool h 0 then false else inside x y w h p.

(** [strokeRect] paints nothing when both sides are zero and a line with
    butt caps when one is; otherwise the outline widened by half the line
    width on either side, with the corners shaped by the join. *)
Definition stroke_covers (lw : Q) (join : LineJoin) (x y w h : Q)
           (p : Point) : bool :=
  let '(px, py) := p in
  let hw := lw / 2 in
  let lx := qmin x (x + w) in let hx := qmax x (x + w) in
  let ly := qmin y (y + h) in let hy := qmax y (y + h) in
  if Qeq_bool w 0 && Qeq_bool h 0 then false
  else if Qeq_bool w 0 then
    Qle_bool (x - hw) px && Qle_bool px (x + hw) &&
    Qle_bool ly py && Qle_bool py hy
  else if Qeq_bool h 0 then
    Qle_bool (y - hw) py && Qle_bool py (y + hw) &&
    Qle_bool lx px && Qle_bool px hx
  else
    let ox := qmax 0 (qmax (lx - px) (px - hx)) in
    let oy := qmax 0 (qmax (ly - py) (py - hy)) in
    if Qeq_bool ox 0 && Qeq_bool oy 0 then
      Qle_bool (qmin (qmin (px - lx) (hx - px)) (qmin (py - ly) (hy - py))) hw
    else
      match join with
      | Round => Qle_bool (ox * ox + oy * oy) (hw * hw)
      | Miter => Qle_bool ox hw && Qle_bool oy hw
      | Bevel => Qle_bool ox hw && Qle_bool oy hw && Qle_bool (ox + oy) hw
      end.

Definition image_covers (img : Image) (dx dy dw dh : Q) (p : Point) : bool :=
  if (naturalWidth img <=? 0)%Z || (naturalHeight img <=? 0)%Z then false
  else if Qeq_bool dw 0 || Qeq_bool dh 0 then false
  else inside dx dy dw dh p.

Definition clamp (lo hi v : Z) : Z := Z.max lo (Z.min hi v).

(** The image pixel shown at [p] when the image is stretched over the
    destination rectangle. *)
Definition image_sample (img : Image) (dx dy dw dh : Q) (p : Point) : RGBA :=
  let '(px, py) := p in
  let u := Qfloor ((px - dx) / dw * inject_Z (naturalWidth img)) in
  let v := Qfloor ((py - dy) / dh * inject_Z (naturalHeight img)) in
  premultiply (bitmap img (clamp 0 (naturalWidth img - 1) u)
                          (clamp 0 (naturalHeight img - 1) v)).

Definition covers (op : PaintOp) (p : Point) : bool :=
  match op with
  | DrawImage img dx dy dw dh => image_covers img dx dy dw dh p
  | StrokeRect _ lw join x y w h => stroke_covers lw join x y w h p
  | FillRect _ x y w h => fill_covers x y w h p
  end.

Definition source (op : PaintOp) (p : Point) : RGBA :=
  match op with
  | DrawImage img dx dy dw dh => image_sample img dx dy dw dh p
  | StrokeRect c _ _ _ _ _ _ => style_color c
  | FillRect c _ _ _ _ => style_color c
  end.

Definition paint (p : Point) (c : RGBA) (op : PaintOp) : RGBA :=
  if covers op p then over (source op p) c else c.

Definition on_surface (cv : Canvas) (p : Point) : bool :=
  let '(px, py) := p in
  Qle_bool 0 px && qlt_bool px (inject_Z (canvas_width cv)) &&
  Qle_bool 0 py && qlt_bool py (inject_Z (canvas_height cv)).

(** The colour the canvas shows at a sample point. *)
Definition pixel_at (cv : Canvas) (p : Point) : RGBA :=
  if on_surface cv p
  then fold_left (paint p) (painted cv) transparent
  else transparent.

(** Equality of colours as numbers, channel by channel. *)
Definition same_color (c d : RGBA) : Prop :=
  red c == red d /\ green c == green d /\ blue c == blue d
  /\ alpha c == alpha d.

(** A box reaches [p] when one of its three layers covers it. *)
Definition box_covers (s : Q) (p : Point) (b : BoundingBox) : bool :=
  existsb (fun op => covers op p) (box_layers s b).

End Raster.

(** ** The image loader (DetectionCanvas.tsx, lines 13-19)

    The component state: the [imageSrc] prop, the [imageObj] state and the
    image elements the effect has created, each with its source and
    whether its [onload] has run.  [decode] is the environment: what a
    source decodes to, [None] when decoding fails (then [onload] never
    runs). *)

Record Decoded : Type := mkDecoded {
  decodedWidth : Z;
  decodedHeight : Z;
  decodedBitmap : Z -> Z -> RGBA
}.

Record Pending : Type := mkPending { element_src : string; fired : bool }.

Record Component : Type := mkComponent {
  imageSrc : string;
  imageObj : option Image;
  elements : list Pending
}.

Inductive Event : Type :=
| Supply (source : string)   (* the parent renders with this [imageSrc] *)
| Completes (k : nat).          (* the decode of the k-th element completes *)

(** The effect: [new Image()], [img.src = imageSrc], [img.onload = ...]. *)
Definition run_effect (source : string) (c : Component) : Component :=
  mkComponent source (imageObj c) (elements c ++ [mkPending source false]).

Definition mount (source : string) : Component :=
  run_effect source (mkComponent source None []).

Fixpoint mark_fired (k : nat) (l : list Pending) : list Pending :=
  match l, k with
  | [], _ => []
  | e :: rest, O => mkPending (element_src e) true :: rest
  | e :: rest, S k' => e :: mark_fired k' rest
  end.

Section Loader.

Variable decode : string -> option Decoded.

Definition loaded (source : string) (d : Decoded) : Image :=
  mkImage source (decodedWidth d) (decodedHeight d) (decodedBitmap d).

(** [img.onload = () => setImageObj(img)]: whichever element completes
    becomes the displayed image. *)
Definition step (c : Component) (e : Event) : Component :=
  match e with
  | Supply source =>
      if String.eqb source (imageSrc c) then c else run_effect source c
  | Completes k =>
      match nth_error (elements c) k with
      | Some (mkPending source false) =>
          match decode source with
          | Some d =>
              mkComponent (imageSrc c) (Some (loaded source d))
                          (mark_fired k (elements c))
          | None => c
          end
      | _ => c
      end
  end.

Definition run (c : Component) (evs : list Event) : Component :=
  fold_left step evs c.

End Loader.

(** The displayed image belongs to the current source (or none is shown). *)
Definition corresponds (c : Component) : Prop :=
  match imageObj c with
  | Some img => src img = imageSrc c
  | None => True
  end.

(** The component's redraw: [draw] closes over [imageObj] and the
    [detections] prop. *)
Definition redraw (c : Component) (detections : list BoundingBox) : Op unit :=
  draw (imageObj c) detections.

(** ** [generateMockDetections] (App.tsx, lines 22-41)

    [Math.random] is an oracle: a sequence of numbers read in order, the
    position being the state.  The promise settles only after the image
    loads, so the result is [None] for a source that does not decode. *)

Record DetectionResponse : Type := mkDetectionResponse {
  log_count : Z;
  detections : list BoundingBox
}.

Section MockDetections.

Variable decode : string -> option Decoded.
Variable random : nat -> Q.

Definition Rand (A : Type) : Type := nat -> A * nat.

Definition Math_random : Rand Q := fun n => (random n, S n).

Definition Math_floor (q : Q) : Z := Qfloor q.

(** One iteration of the [for] loop: three draws and a [push]. *)
Definition mock_box (width height : Q) : Rand BoundingBox :=
  fun n =>
    let '(r1, n1) := Math_random n in
    let size := r1 * (width * (1 # 10)) + width * (5 # 100) in
    let '(r2, n2) := Math_random n1 in
    let x := r2 * (width - size) in
    let '(r3, n3) := Math_random n2 in
    let y := r3 * (height - size) in
    ((x, y, x + size, y + size), n3).

(** [for (let i = 0; i < count; i++)], with [todo] iterations left. *)
Fixpoint mock_loop (todo : nat) (width height : Q)
         (acc : list BoundingBox) : Rand (list BoundingBox) :=
  fun n =>
    match todo with
    | O => (acc, n)
    | S todo' =>
        let '(b, n') := mock_box width height n in
        mock_loop todo' width height (acc ++ [b]) n'
    end.

Definition generateMockDetections (imageSrc : string)
  : option DetectionResponse :=
  match decode imageSrc with
  | None => None
  | Some img =>
      let width := inject_Z (decodedWidth img) in
      let height := inject_Z (decodedHeight img) in
      let '(r, n) := Math_random O in
      let count := (Math_floor (r * 10) + 15)%Z in
      let '(boxes, _) := mock_loop (Z.to_nat count) width height [] n in
      Some (mkDetectionResponse count boxes)
  end.

End MockDetections.

(** ** The redraw lifecycle (DetectionCanvas.tsx, lines 63-69)

    [draw] is re-created when [imageObj] or [detections] changes, and the
    effect of lines 65-69 then calls it and installs it as the window's
    [resize] listener.  The events are the changes of those dependencies:
    an event of the loader, a new [detections] array, or a [resize] of the
    window, which tells the new width of the container. *)

Record Mounted : Type := mkMounted {
  component : Component;
  detections_prop : list BoundingBox;
  page : DOM
}.

Inductive CanvasEvent : Type :=
| Loader (e : Event)
| NewDetections (boxes : list BoundingBox)
| WindowResize (clientW : Z).

Definition set_clientWidth (clientW : Z) (dom : DOM) : DOM :=
  mkDOM (canvasRef dom)
        (match containerRef dom with
         | Some _ => Some (mkContainer clientW)
         | None => None
         end).

Section Lifecycle.

Variable decode : string -> option Decoded.

(** Whether the event makes [onload] call [setImageObj] with a new element. *)
Definition sets_image (c : Component) (e : Event) : bool :=
  match e with
  | Supply _ => false
  | Completes k =>
      match nth_error (elements c) k with
      | Some (mkPending source false) =>
          match decode source with Some _ => true | None => false end
      | _ => false
      end
  end.

(** Run the current [draw] on the page. *)
Definition redraw_page (c : Component) (boxes : list BoundingBox) (dom : DOM)
  : Outcome Mounted :=
  match draw (imageObj c) boxes dom with
  | Returned (_, dom') => Returned (mkMounted c boxes dom')
  | Thrown e => Thrown e
  end.

(** Mounting runs both effects: the decode starts and [draw] is called. *)
Definition mount_canvas (source : string) (boxes : list BoundingBox)
           (dom : DOM) : Outcome Mounted :=
  redraw_page (mount source) boxes dom.

Definition lifecycle_step (m : Mounted) (e : CanvasEvent) : Outcome Mounted :=
  match e with
  | Loader ev =>
      let c' := step decode (component m) ev in
      if sets_image (component m) ev
      then redraw_page c' (detections_prop m) (page m)
      else Returned (mkMounted c' (detections_prop m) (page m))
  | NewDetections boxes => redraw_page (component m) boxes (page m)
  | WindowResize clientW =>
      redraw_page (component m) (detections_prop m)
                  (set_clientWidth clientW (page m))
  end.

Fixpoint lifecycle (m : Mounted) (evs : list CanvasEvent) : Outcome Mounted :=
  match evs with
  | [] => Returned m
  | e :: rest =>
      match lifecycle_step m e with
      | Returned m' => lifecycle m' rest
      | Thrown err => Thrown err
      end
  end.

End Lifecycle.

(** ** The page component (App.tsx)

    The two state cells of [App] and its handlers.  An asynchronous handler
    is split at its [await]s and callbacks: the synchronous part starts a
    request, and the completion of the request is an event of its own.  A
    state update written [setState(prev => ...)] acts on the state at the
    time of the event. *)
Module App.

Definition API_ENDPOINT : string := "http://localhost:8000/predict".

Record File : Type := mkFile { fileName : string; fileType : string }.

Record PredictionState : Type := mkState {
  image : option string;
  file : option File;
  results : option DetectionResponse;
  loading : bool;
  error : option string
}.

Record Hooks : Type := mkHooks {
  isDemoMode : bool;
  state : PredictionState
}.

Definition initial : Hooks :=
  mkHooks false (mkState None None None false None).

(** Asynchronous work a handler starts. *)
Inductive Request : Type :=
| ReadUpload (f : File)               (* reader.readAsDataURL(file) *)
| FetchSample                         (* fetch(SAMPLE_IMAGE_URL) *)
| Simulate (imageSrc : string)        (* generateMockDetections(state.image) *)
| Predict (body : option File).       (* fetch(API_ENDPOINT, POST formData) *)

Inductive Event : Type :=
| FileChosen (f : option File)        (* handleFileChange, e.target.files?.[0] *)
| UploadRead (f : File) (dataUrl : string)   (* its reader.onload *)
| SampleClicked                       (* loadSampleImage *)
| SampleRead (dataUrl : string)       (* its reader.onload *)
| SampleFailed                        (* its catch *)
| SubmitClicked                       (* handleSubmit *)
| SimulationDone (mockData : DetectionResponse)
| PredictOk (data : DetectionResponse)
| PredictFailed                       (* the catch of handleSubmit *)
| ResetClicked                        (* handleReset *)
| ModeToggled                         (* the mode switch in the header *)
| RetryClicked.                       (* toggleAndRetry *)

(** JavaScript truthiness of a [string | null]. *)
Definition truthy (o : option string) : bool :=
  match o with
  | Some s => negb (String.eqb s EmptyString)
  | None => false
  end.

Definition isSome {A : Type} (o : option A) : bool :=
  match o with Some _ => true | None => false end.

Definition setState (f : PredictionState -> PredictionState) (h : Hooks)
  : Hooks :=
  mkHooks (isDemoMode h) (f (state h)).

Definition sample_file : File := mkFile "sample_timber.jpg" "image/jpeg".

Definition connect_error : string :=
  String.append "Could not connect to "
    (String.append API_ENDPOINT
       ". Is your local Python/Node server running? If not, use Demo Mode.").

(** [handleSubmit], up to its first [await] (lines 83-111). *)
Definition handleSubmit (h : Hooks) : Hooks * list Request :=
  match image (state h) with
  | None => (h, [])
  | Some imageSrc =>
      if String.eqb imageSrc EmptyString then (h, [])
      else
        let h' := setState (fun prev =>
                    mkState (image prev) (file prev) (results prev) true None)
                    h in
        if isDemoMode h then (h', [Simulate imageSrc])
        else (h', [Predict (file (state h))])
  end.

(** The effect keyed on [isDemoMode] (lines 124-128), run after a render in
    which [isDemoMode] changed. *)
Definition mode_effect (old new : Hooks) : Hooks * list Request :=
  if Bool.eqb (isDemoMode old) (isDemoMode new) then (new, [])
  else if isDemoMode new && truthy (image (state new))
          && negb (isSome (results (state new)))
          && negb (loading (state new))
          && negb (truthy (error (state new)))
       then handleSubmit new
       else (new, []).

Definition step (h : Hooks) (e : Event) : Hooks * list Request :=
  match e with
  | FileChosen None => (h, [])
  | FileChosen (Some f) => (h, [ReadUpload f])
  | UploadRead f dataUrl =>
      (setState (fun _ => mkState (Some dataUrl) (Some f) None false None) h,
       [])
  | SampleClicked =>
      (setState (fun prev =>
         mkState (image prev) (file prev) (results prev) true None) h,
       [FetchSample])
  | SampleRead dataUrl =>
      mode_effect h
        (mkHooks true
                 (mkState (Some dataUrl) (Some sample_file) None false None))
  | SampleFailed =>
      (setState (fun prev =>
         mkState (image prev) (file prev) (results prev) false
                 (Some "Failed to load sample image."%string)) h,
       [])
  | SubmitClicked => handleSubmit h
  | SimulationDone mockData =>
      (setState (fun prev =>
         mkState (image prev) (file prev) (Some mockData) false (error prev)) h,
       [])
  | PredictOk data =>
      (setState (fun prev =>
         mkState (image prev) (file prev) (Some data) false (error prev)) h,
       [])
  | PredictFailed =>
      (setState (fun prev =>
         mkState (image prev) (file prev) (results prev) false
                 (Some connect_error)) h,
       [])
  | ResetClicked =>
      (setState (fun _ => mkState None None None false None) h, [])
  | ModeToggled => mode_effect h (mkHooks (negb (isDemoMode h)) (state h))
  | RetryClicked =>
      mode_effect h
        (mkHooks true
                 (mkState (image (state h)) (file (state h))
                          (results (state h)) (loading (state h)) None))
  end.

(** A sequence of events: the final state and the requests started. *)
Fixpoint run (h : Hooks) (evs : list Event) : Hooks * list Request :=
  match evs with
  | [] => (h, [])
  | e :: rest =>
      let '(h1, started) := step h e in
      let '(h2, later) := run h1 rest in
      (h2, started ++ later)
  end.

(** The props of [<DetectionCanvas>] (line 194), when it is rendered. *)
Definition canvas_props (h : Hooks) : option (string * list BoundingBox) :=
  match image (state h) with
  | None => None
  | Some imageSrc =>
      if String.eqb imageSrc EmptyString then None
      else Some (imageSrc,
                 match results (state h) with
                 | Some r => detections r
                 | None => []
                 end)
  end.

End App.

(** * Properties *)

(** ** Helpers *)


Definition white : Z -> Z -> RGBA := fun _ _ => mkRGBA 255 255 255 1.

Definition blank_canvas : Canvas := mkCanvas 300 150 NoContext [].

(** [draw] repeated. *)
Fixpoint draw_times (n : nat) (imageObj : option Image)
         (boxes : list BoundingBox) : Op unit :=
  match n with
  | O => ret tt
  | S n' => draw imageObj boxes ;;; draw_times n' imageObj boxes
  end.

(** What the claim says of one generated box, for an image [width] wide. *)
Definition mock_box_ok (width : Q) (b : BoundingBox) : Prop :=
  exists x y size,
    b = (x, y, x + size, y + size)
    /\ 0 < size
    /\ (5 # 100) * width <= size
    /\ size <= (15 # 100) * width
    /\ x < x + size
    /\ y < y + size.

(** A mounted canvas component driven by a sequence of events. *)
Definition canvas_session (decode : string -> option Decoded)
           (source : string) (boxes : list BoundingBox) (dom : DOM)
           (evs : list CanvasEvent) : Outcome Mounted :=
  match mount_canvas source boxes dom with
  | Returned m => lifecycle decode m evs
  | Thrown e => Thrown e
  end.

(** A box that lies inside an image of the given natural size. *)
Definition inside_image (img : Image) (b : BoundingBox) : Prop :=
  let '(x1, y1, x2, y2) := b in
  0 <= x1 /\ x1 <= x2 /\ x2 <= inject_Z (naturalWidth img)
  /\ 0 <= y1 /\ y1 <= y2 /\ y2 <= inject_Z (naturalHeight img).

(** The rectangle of a stroke or fill. *)
Definition rect_of (op : PaintOp) : option (Q * Q * Q * Q) :=
  match op with
  | DrawImage _ _ _ _ _ => None
  | StrokeRect _ _ _ x y w h | FillRect _ x y w h => Some (x, y, w, h)
  end.

(** The canvas shows the frame of the image held, if any; otherwise it is
    still the canvas [cv0] the component was mounted on. *)
Definition in_sync (cv0 : Canvas) (m : Mounted) : Prop :=
  exists ct,
    containerRef (page m) = Some ct
    /\ canvasRef (page m)
       = Some match imageObj (component m) with
              | Some img => frame img ct (detections_prop m)
              | None => cv0
              end.

(** The image displayed is the decoded image of one of the elements, and
    that element's [onload] has run. *)
Definition displayed_ok (decode : string -> option Decoded) (c : Component)
  : Prop :=
  forall img,
    imageObj c = Some img ->
    exists k d,
      nth_error (elements c) k = Some (mkPending (src img) true)
      /\ decode (src img) = Some d
      /\ img = loaded (src img) d.

(** The error banner and the loading overlay are not up together. *)
Definition no_error_while_loading (h : App.Hooks) : Prop :=
  App.loading (App.state h) = true -> App.error (App.state h) = None.

(** The image and the file are set together and cleared together. *)
Definition file_with_image (h : App.Hooks) : Prop :=
  App.isSome (App.image (App.state h)) = App.isSome (App.file (App.state h)).

(** A mock box that lies inside an image [width] by [height]; vertically
    this needs an image at least 0.15 times as high as it is wide. *)
Definition mock_box_inside (width height : Q) (b : BoundingBox) : Prop :=
  let '(x1, y1, x2, y2) := b in
  0 <= x1 /\ x2 < width
  /\ ((15 # 100) * width <= height -> 0 <= y1 /\ y2 < height).

(** ** What [draw] computes *)

Lemma draw_box_run (s : Q) (b : BoundingBox) (st : Ctx2D) (w h : Z)
      (ops : list PaintOp) (ct : option Container) :
  lineJoin st = Round ->
  draw_box s b (mkDOM (Some (mkCanvas w h (Context2D st) ops)) ct) =
  Returned (tt, mkDOM (Some (mkCanvas w h
                    (Context2D (mkCtx2D highlight_style fill_style 2 Round))
                    (ops ++ box_layers s b))) ct).
Proof.
  destruct b as [[[x1 y1] x2] y2].
  destruct st as [ss fs lw lj]. cbn [lineJoin]. intros ->.
  unfold draw_box, box_layers, scaled_rect, bind, set_strokeStyle, set_fillStyle,
    set_lineWidth, strokeRect, fillRect, ctx_call, with_state, emit,
    shadow_style, highlight_style, fill_style; cbn.
  change (valid_color (Hex "4ade80")) with true; cbn.
  repeat rewrite <- app_assoc; reflexivity.
Qed.

Lemma forEach_draw_box (s : Q) (detections : list BoundingBox) :
  forall (st : Ctx2D) (w h : Z) (ops : list PaintOp) (ct : option Container),
    lineJoin st = Round ->
    forEach detections (draw_box s)
            (mkDOM (Some (mkCanvas w h (Context2D st) ops)) ct) =
    Returned (tt, mkDOM (Some (mkCanvas w h
                      (Context2D (state_after detections st))
                      (ops ++ flat_map (box_layers s) detections))) ct).
Proof.
  induction detections as [|b rest IH]; intros st w h ops ct Hj.
  - cbn. now rewrite app_nil_r.
  - cbn [forEach]. unfold bind at 1. rewrite draw_box_run by exact Hj.
    rewrite IH by reflexivity.
    cbn [flat_map state_after]. rewrite <- app_assoc, Hj.
    destruct rest; reflexivity.
Qed.

(** With an image, both handles and a 2D context, [draw] returns and the
    canvas holds exactly [frame], whatever it held before. *)
Lemma draw_frame (img : Image) (detections : list BoundingBox)
      (cv : Canvas) (ct : Container) :
  has_2d cv = true ->
  draw (Some img) detections (mkDOM (Some cv) (Some ct)) =
  Returned (tt, mkDOM (Some (frame img ct detections)) (Some ct)).
Proof.
  intros H2d. destruct cv as [w h m ops]. unfold has_2d in H2d. cbn in H2d.
  unfold draw, frame, surface_width, surface_height, scale_of.
  destruct m as [|st|]; try discriminate;
    unfold bind, current, getContext2d, container_clientWidth, image_get,
      canvas_update, canvas_get, drawImage, set_strokeStyle, set_lineWidth,
      set_lineJoin, ctx_call, with_state, emit, assign_width, assign_height;
    cbn -[reflect_dimension forEach Qdiv Qmult valid_color];
    change (valid_color (Hex "22c55e")) with true;
    cbn -[reflect_dimension forEach Qdiv Qmult];
    rewrite forEach_draw_box by reflexivity; reflexivity.
Qed.

(** Without the image or one of the handles, or without a 2D context,
    [draw] returns at once and leaves the DOM as it was. *)
Lemma draw_idle (imageObj : option Image) (detections : list BoundingBox)
      (dom : DOM) :
  imageObj = None \/ canvasRef dom = None \/ containerRef dom = None
  \/ (exists cv, canvasRef dom = Some cv /\ has_2d cv = false) ->
  draw imageObj detections dom = Returned (tt, dom).
Proof.
  destruct dom as [[cv|] [ct|]], imageObj as [img|]; cbn;
    try reflexivity; intros [H|[H|[H|[cv' [H1 H2]]]]]; try discriminate;
    try reflexivity.
  injection H1 as <-. unfold has_2d in H2.
  unfold bind, getContext2d; cbn. destruct (mode cv); try discriminate.
  reflexivity.
Qed.

Lemma has_2d_frame (img : Image) (ct : Container) (boxes : list BoundingBox) :
  has_2d (frame img ct boxes) = true.
Proof. reflexivity. Qed.

(** [draw] never throws: it returns, with some DOM. *)
Lemma draw_returns (imageObj : option Image) (boxes : list BoundingBox)
      (dom : DOM) :
  exists dom', draw imageObj boxes dom = Returned (tt, dom').
Proof.
  destruct imageObj as [img|]; [|eexists; apply draw_idle; now left].
  destruct dom as [[cv|] [ct|]];
    try (eexists; apply draw_idle; cbn; tauto).
  destruct (has_2d cv) eqn:H2d.
  - eexists. now apply draw_frame.
  - eexists. apply draw_idle. right; right; right. now exists cv.
Qed.




(** ** Surface size *)




(** ** Boxes *)

Lemma box_layers_in (s : Q) (boxes : list BoundingBox) (op : PaintOp) :
  In op (flat_map (box_layers s) boxes) <->
  exists b, In b boxes /\ In op (box_layers s b).
Proof. apply in_flat_map. Qed.

(** C2.  For a decoded image of natural width W > 0, a container of width C
    and scale s = C / W, every box (x1, y1, x2, y2) of the detection set is
    painted as the rectangle with top-left corner (x1*s, y1*s) and size
    ((x2-x1)*s, (y2-y1)*s) -- by both strokes and by the fill -- and no
    stroke or fill is painted on any other rectangle. *)
Theorem box_transform (img : Image) (ct : Container)
        (boxes : list BoundingBox) (cv : Canvas) :
  (0 < naturalWidth img)%Z ->
  has_2d cv = true ->
  let s := inject_Z (clientWidth ct) / inject_Z (naturalWidth img) in
  exists cv',
    draw (Some img) boxes (mkDOM (Some cv) (Some ct))
    = Returned (tt, mkDOM (Some cv') (Some ct))
    /\ (forall x1 y1 x2 y2, In (x1, y1, x2, y2) boxes ->
          In (StrokeRect shadow_style 5 Round
                (x1 * s) (y1 * s) ((x2 - x1) * s) ((y2 - y1) * s)) (painted cv')
          /\ In (StrokeRect highlight_style 2 Round
                (x1 * s) (y1 * s) ((x2 - x1) * s) ((y2 - y1) * s)) (painted cv')
          /\ In (FillRect fill_style
                (x1 * s) (y1 * s) ((x2 - x1) * s) ((y2 - y1) * s)) (painted cv'))
    /\ (forall op, In op (painted cv') ->
          match op with
          | DrawImage _ _ _ _ _ => True
          | StrokeRect _ _ _ x y w h | FillRect _ x y w h =>
              exists x1 y1 x2 y2,
                In (x1, y1, x2, y2) boxes /\
                (x, y, w, h)
                = (x1 * s, y1 * s, (x2 - x1) * s, (y2 - y1) * s)
          end).
Proof.
  intros _ H2d s.
  exists (frame img ct boxes). split; [now apply draw_frame|].
  cbn [frame painted]. fold (scale_of img ct). fold s. split.
  - intros x1 y1 x2 y2 Hin.
    repeat split; right; apply box_layers_in; exists (x1, y1, x2, y2);
      (split; [exact Hin|]); cbn; tauto.
  - intros op [<-|Hop]; [exact I|].
    apply box_layers_in in Hop. destruct Hop as [[[[x1 y1] x2] y2] [Hin Hop]].
    cbn in Hop.
    destruct Hop as [<-|[<-|[<-|[]]]]; exists x1, y1, x2, y2; now split.
Qed.

(** The scenario of the specification: image 1200 x 800, container 600. *)
Lemma box_transform_witness :
  let s := inject_Z 600 / inject_Z 1200 in
  exists cv',
    draw (Some (mkImage "a" 1200 800 white)) [(100, 100, 300, 300)]
         (mkDOM (Some blank_canvas) (Some (mkContainer 600)))
    = Returned (tt, mkDOM (Some cv') (Some (mkContainer 600)))
    /\ (forall x1 y1 x2 y2, In (x1, y1, x2, y2) [(100, 100, 300, 300)] ->
          In (StrokeRect shadow_style 5 Round
                (x1 * s) (y1 * s) ((x2 - x1) * s) ((y2 - y1) * s)) (painted cv')
          /\ In (StrokeRect highlight_style 2 Round
                (x1 * s) (y1 * s) ((x2 - x1) * s) ((y2 - y1) * s)) (painted cv')
          /\ In (FillRect fill_style
                (x1 * s) (y1 * s) ((x2 - x1) * s) ((y2 - y1) * s)) (painted cv'))
    /\ (forall op, In op (painted cv') ->
          match op with
          | DrawImage _ _ _ _ _ => True
          | StrokeRect _ _ _ x y w h | FillRect _ x y w h =>
              exists x1 y1 x2 y2,
                In (x1, y1, x2, y2) [(100, 100, 300, 300)] /\
                (x, y, w, h)
                = (x1 * s, y1 * s, (x2 - x1) * s, (y2 - y1) * s)
          end).
Proof.
  apply (box_transform (mkImage "a" 1200 800 white) (mkContainer 600)
                       [(100, 100, 300, 300)] blank_canvas).
  - cbn. lia.
  - reflexivity.
Defined.

(** In that scenario the box (100,100,300,300) lands at (50,50) with size
    (100,100), and the box (0,0,1200,800) covers the 600 x 400 surface. *)
Example scenario_rectangles :
  let s := inject_Z 600 / inject_Z 1200 in
  let '(x, y, w, h) := scaled_rect s (100, 100, 300, 300) in
  let '(x', y', w', h') := scaled_rect s (0, 0, 1200, 800) in
  (x == 50 /\ y == 50 /\ w == 100 /\ h == 100)
  /\ (x' == 0 /\ y' == 0 /\ w' == 600 /\ h' == 400).
Proof. cbn. repeat split; reflexivity. Qed.

(** C8.  For every box the renderer paints, in this order and on the same
    scaled rectangle: a stroke 5 wide in black at 50% opacity, a stroke 2 wide
    in the accent colour, and a fill in the accent colour at 15% opacity.  The
    bitmap is the base image followed by these triples in box order. *)
Theorem box_layer_order (img : Image) (ct : Container)
        (boxes : list BoundingBox) (cv : Canvas) :
  has_2d cv = true ->
  exists cv' shadow accent fill,
    draw (Some img) boxes (mkDOM (Some cv) (Some ct))
    = Returned (tt, mkDOM (Some cv') (Some ct))
    /\ painted cv'
       = DrawImage img 0 0 (inject_Z (canvas_width cv'))
                   (inject_Z (canvas_height cv'))
           :: flat_map (fun b =>
                          let '(x, y, w, h) := scaled_rect (scale_of img ct) b in
                          [ StrokeRect shadow 5 Round x y w h;
                            StrokeRect accent 2 Round x y w h;
                            FillRect fill x y w h ]) boxes
    /\ resolve shadow = Some (mkRGBA 0 0 0 (1 # 2))
    /\ resolve accent = Some (mkRGBA 74 222 128 1)
    /\ resolve fill = Some (mkRGBA 74 222 128 (15 # 100)).
Proof.
  intros H2d.
  exists (frame img ct boxes), shadow_style, highlight_style, fill_style.
  split; [now apply draw_frame|].
  repeat split.
Qed.

Lemma box_layer_order_witness :
  exists cv' shadow accent fill,
    draw (Some (mkImage "a" 1200 800 white))
         [(100, 100, 300, 300); (0, 0, 1200, 800)]
         (mkDOM (Some blank_canvas) (Some (mkContainer 600)))
    = Returned (tt, mkDOM (Some cv') (Some (mkContainer 600)))
    /\ painted cv'
       = DrawImage (mkImage "a" 1200 800 white) 0 0
                   (inject_Z (canvas_width cv')) (inject_Z (canvas_height cv'))
           :: flat_map (fun b =>
                          let '(x, y, w, h) :=
                            scaled_rect (scale_of (mkImage "a" 1200 800 white)
                                                  (mkContainer 600)) b in
                          [ StrokeRect shadow 5 Round x y w h;
                            StrokeRect accent 2 Round x y w h;
                            FillRect fill x y w h ])
                       [(100, 100, 300, 300); (0, 0, 1200, 800)]
    /\ resolve shadow = Some (mkRGBA 0 0 0 (1 # 2))
    /\ resolve accent = Some (mkRGBA 74 222 128 1)
    /\ resolve fill = Some (mkRGBA 74 222 128 (15 # 100)).
Proof.
  apply (box_layer_order (mkImage "a" 1200 800 white) (mkContainer 600)
                         [(100, 100, 300, 300); (0, 0, 1200, 800)] blank_canvas).
  reflexivity.
Defined.

(** C7.  With an empty detection set the bitmap holds the base image and
    nothing else: no stroke and no fill is emitted. *)
Theorem empty_detection_set (img : Image) (ct : Container) (cv : Canvas) :
  has_2d cv = true ->
  exists cv',
    draw (Some img) [] (mkDOM (Some cv) (Some ct))
    = Returned (tt, mkDOM (Some cv') (Some ct))
    /\ painted cv'
       = [DrawImage img 0 0 (inject_Z (canvas_width cv'))
                    (inject_Z (canvas_height cv'))].
Proof.
  intros H2d. exists (frame img ct []). split; [now apply draw_frame|].
  reflexivity.
Qed.

Lemma empty_detection_set_witness :
  exists cv',
    draw (Some (mkImage "a" 1200 800 white)) []
         (mkDOM (Some blank_canvas) (Some (mkContainer 600)))
    = Returned (tt, mkDOM (Some cv') (Some (mkContainer 600)))
    /\ painted cv'
       = [DrawImage (mkImage "a" 1200 800 white) 0 0
                    (inject_Z (canvas_width cv')) (inject_Z (canvas_height cv'))].
Proof.
  apply (empty_detection_set (mkImage "a" 1200 800 white) (mkContainer 600)
                             blank_canvas).
  reflexivity.
Defined.

(** ** Early exit *)

(** C6.  While the decoded image is absent, or the canvas or the container
    handle is unavailable, a render call returns normally (no exception) and
    the DOM, hence the surface, is exactly what it was. *)
Theorem render_noop (imageObj : option Image) (boxes : list BoundingBox)
        (dom : DOM) :
  imageObj = None \/ canvasRef dom = None \/ containerRef dom = None ->
  draw imageObj boxes dom = Returned (tt, dom).
Proof.
  intros H. apply draw_idle. tauto.
Qed.

Lemma render_noop_witness :
  draw None [(100, 100, 300, 300)]
       (mkDOM (Some blank_canvas) (Some (mkContainer 600)))
  = Returned (tt, mkDOM (Some blank_canvas) (Some (mkContainer 600))).
Proof.
  apply (render_noop None [(100, 100, 300, 300)]
                     (mkDOM (Some blank_canvas) (Some (mkContainer 600)))).
  left. reflexivity.
Defined.

(** ** Malformed boxes *)

Lemma scale_nonneg (img : Image) (ct : Container) :
  (0 < naturalWidth img)%Z -> (0 <= clientWidth ct)%Z -> 0 <= scale_of img ct.
Proof.
  intros HW HC. unfold scale_of. apply Qle_shift_div_l.
  - change 0 with (inject_Z 0). now rewrite <- Zlt_Qlt.
  - rewrite Qmult_0_l. change 0 with (inject_Z 0). now rewrite <- Zle_Qle.
Qed.

(** C9.  A box with x2 < x1 or y2 < y1 is neither checked nor rejected and
    raises nothing: the render call returns, the box is painted like any
    other as a rectangle whose width (resp. height) is zero or negative, and
    the base image and the boxes before and after it are painted too. *)
Theorem malformed_box_painted (img : Image) (ct : Container) (cv : Canvas)
        (before after : list BoundingBox) (x1 y1 x2 y2 : Q) :
  (0 < naturalWidth img)%Z ->
  (0 <= clientWidth ct)%Z ->
  has_2d cv = true ->
  x2 < x1 \/ y2 < y1 ->
  let s := scale_of img ct in
  exists cv',
    draw (Some img) (before ++ (x1, y1, x2, y2) :: after)
         (mkDOM (Some cv) (Some ct))
    = Returned (tt, mkDOM (Some cv') (Some ct))
    /\ painted cv'
       = DrawImage img 0 0 (inject_Z (canvas_width cv'))
                   (inject_Z (canvas_height cv'))
           :: flat_map (box_layers s) before
           ++ [ StrokeRect shadow_style 5 Round
                  (x1 * s) (y1 * s) ((x2 - x1) * s) ((y2 - y1) * s);
                StrokeRect highlight_style 2 Round
                  (x1 * s) (y1 * s) ((x2 - x1) * s) ((y2 - y1) * s);
                FillRect fill_style
                  (x1 * s) (y1 * s) ((x2 - x1) * s) ((y2 - y1) * s) ]
           ++ flat_map (box_layers s) after
    /\ (x2 < x1 -> (x2 - x1) * s <= 0)
    /\ (y2 < y1 -> (y2 - y1) * s <= 0).
Proof.
  intros HW HC H2d _ s.
  exists (frame img ct (before ++ (x1, y1, x2, y2) :: after)).
  split; [now apply draw_frame|].
  pose proof (scale_nonneg img ct HW HC) as Hs. fold s in Hs.
  split.
  - cbn [frame painted canvas_width canvas_height]. fold s.
    rewrite flat_map_app. reflexivity.
  - split; intros Hlt.
    + assert (x2 - x1 <= 0) by lra. nra.
    + assert (y2 - y1 <= 0) by lra. nra.
Qed.

Lemma malformed_box_painted_witness :
  let s := scale_of (mkImage "a" 1200 800 white) (mkContainer 600) in
  exists cv',
    draw (Some (mkImage "a" 1200 800 white))
         ([(0, 0, 10, 10)] ++ (300, 100, 100, 300) :: [(20, 20, 40, 40)])
         (mkDOM (Some blank_canvas) (Some (mkContainer 600)))
    = Returned (tt, mkDOM (Some cv') (Some (mkContainer 600)))
    /\ painted cv'
       = DrawImage (mkImage "a" 1200 800 white) 0 0
                   (inject_Z (canvas_width cv')) (inject_Z (canvas_height cv'))
           :: flat_map (box_layers s) [(0, 0, 10, 10)]
           ++ [ StrokeRect shadow_style 5 Round
                  (300 * s) (100 * s) ((100 - 300) * s) ((300 - 100) * s);
                StrokeRect highlight_style 2 Round
                  (300 * s) (100 * s) ((100 - 300) * s) ((300 - 100) * s);
                FillRect fill_style
                  (300 * s) (100 * s) ((100 - 300) * s) ((300 - 100) * s) ]
           ++ flat_map (box_layers s) [(20, 20, 40, 40)]
    /\ (100 < 300 -> (100 - 300) * s <= 0)
    /\ (300 < 100 -> (300 - 100) * s <= 0).
Proof.
  apply (malformed_box_painted (mkImage "a" 1200 800 white) (mkContainer 600)
           blank_canvas [(0, 0, 10, 10)] [(20, 20, 40, 40)] 300 100 100 300).
  - cbn. lia.
  - cbn. lia.
  - reflexivity.
  - left. reflexivity.
Defined.

(** ** Determinism *)

Lemma draw_twice (imageObj : option Image) (boxes : list BoundingBox)
      (dom dom1 : DOM) :
  draw imageObj boxes dom = Returned (tt, dom1) ->
  draw imageObj boxes dom1 = Returned (tt, dom1).
Proof.
  destruct imageObj as [img|].
  2:{ rewrite !draw_idle by now left. congruence. }
  destruct dom as [[cv|] [ct|]].
  2-4: rewrite draw_idle by (cbn; tauto); intros [= <-];
       apply draw_idle; cbn; tauto.
  destruct (has_2d cv) eqn:H2d.
  - rewrite draw_frame by exact H2d. intros [= <-].
    apply draw_frame, has_2d_frame.
  - assert (Hidle : draw (Some img) boxes (mkDOM (Some cv) (Some ct))
                    = Returned (tt, mkDOM (Some cv) (Some ct))).
    { apply draw_idle. right; right; right. now exists cv. }
    rewrite Hidle. intros [= <-]. exact Hidle.
Qed.

Lemma draw_times_stable (n : nat) (imageObj : option Image)
      (boxes : list BoundingBox) (dom1 : DOM) :
  draw imageObj boxes dom1 = Returned (tt, dom1) ->
  draw_times n imageObj boxes dom1 = Returned (tt, dom1).
Proof.
  intros Hfix. induction n as [|n IH]; [reflexivity|].
  cbn [draw_times]. unfold bind. rewrite Hfix. exact IH.
Qed.

(** C5.  For a fixed decoded image, detection set and container width, the
    canvas after a render call does not depend on what the canvas held
    before (no drawing state is carried over), so every sample point shows
    the same colour; and any number of further calls leaves the result of the
    first one unchanged. *)
Theorem render_deterministic (img : Image) (boxes : list BoundingBox)
        (ct : Container) (cv cv' : Canvas) :
  has_2d cv = true ->
  has_2d cv' = true ->
  exists out,
    draw (Some img) boxes (mkDOM (Some cv) (Some ct))
    = Returned (tt, mkDOM (Some out) (Some ct))
    /\ draw (Some img) boxes (mkDOM (Some cv') (Some ct))
       = Returned (tt, mkDOM (Some out) (Some ct))
    /\ (forall n,
          draw_times (S n) (Some img) boxes (mkDOM (Some cv) (Some ct))
          = Returned (tt, mkDOM (Some out) (Some ct)))
    /\ (forall n out_n,
          draw_times (S n) (Some img) boxes (mkDOM (Some cv') (Some ct))
          = Returned (tt, mkDOM (Some out_n) (Some ct)) ->
          forall p, Raster.pixel_at out_n p = Raster.pixel_at out p).
Proof.
  intros H2d H2d'. exists (frame img ct boxes).
  assert (Hn : forall c n, has_2d c = true ->
             draw_times (S n) (Some img) boxes (mkDOM (Some c) (Some ct))
             = Returned (tt, mkDOM (Some (frame img ct boxes)) (Some ct))).
  { intros c n Hc. cbn [draw_times]. unfold bind.
    rewrite draw_frame by exact Hc.
    apply draw_times_stable, draw_frame, has_2d_frame. }
  repeat split; try (now apply draw_frame); try (now intros; apply Hn).
  intros n out_n Hrun p. rewrite Hn in Hrun by exact H2d'.
  now injection Hrun as <-.
Qed.

Lemma render_deterministic_witness :
  exists out,
    draw (Some (mkImage "a" 1200 800 white)) [(100, 100, 300, 300)]
         (mkDOM (Some blank_canvas) (Some (mkContainer 600)))
    = Returned (tt, mkDOM (Some out) (Some (mkContainer 600)))
    /\ draw (Some (mkImage "a" 1200 800 white)) [(100, 100, 300, 300)]
            (mkDOM (Some (mkCanvas 10 10 (Context2D default_ctx)
                                   [FillRect fill_style 0 0 5 5]))
                   (Some (mkContainer 600)))
       = Returned (tt, mkDOM (Some out) (Some (mkContainer 600)))
    /\ (forall n,
          draw_times (S n) (Some (mkImage "a" 1200 800 white))
                     [(100, 100, 300, 300)]
                     (mkDOM (Some blank_canvas) (Some (mkContainer 600)))
          = Returned (tt, mkDOM (Some out) (Some (mkContainer 600))))
    /\ (forall n out_n,
          draw_times (S n) (Some (mkImage "a" 1200 800 white))
                     [(100, 100, 300, 300)]
                     (mkDOM (Some (mkCanvas 10 10 (Context2D default_ctx)
                                            [FillRect fill_style 0 0 5 5]))
                            (Some (mkContainer 600)))
          = Returned (tt, mkDOM (Some out_n) (Some (mkContainer 600))) ->
          forall p, Raster.pixel_at out_n p = Raster.pixel_at out p).
Proof.
  apply (render_deterministic (mkImage "a" 1200 800 white)
           [(100, 100, 300, 300)] (mkContainer 600) blank_canvas
           (mkCanvas 10 10 (Context2D default_ctx) [FillRect fill_style 0 0 5 5]));
    reflexivity.
Defined.

(** ** Order of the boxes *)

Lemma filter_permutation {A : Type} (f : A -> bool) (l l' : list A) :
  Permutation l l' -> Permutation (filter f l) (filter f l').
Proof.
  induction 1 as [|a l l' _ IH|a b l|l l' l'' _ IH1 _ IH2]; cbn.
  - constructor.
  - destruct (f a); [now constructor|exact IH].
  - destruct (f a), (f b); try apply Permutation_refl.
    apply perm_swap.
  - now transitivity (filter f l').
Qed.

Lemma paint_uncovered_box (s : Q) (p : Raster.Point) (b : BoundingBox)
      (c : RGBA) :
  Raster.box_covers s p b = false ->
  fold_left (Raster.paint p) (box_layers s b) c = c.
Proof.
  destruct b as [[[x1 y1] x2] y2].
  unfold Raster.box_covers, box_layers, scaled_rect. cbn [existsb fold_left].
  rewrite !orb_false_iff. intros (H1 & H2 & H3 & _).
  unfold Raster.paint. now rewrite H1, H2, H3.
Qed.

(** Only the boxes that reach a sample point contribute to its colour. *)
Lemma paint_covering_boxes (s : Q) (p : Raster.Point)
      (boxes : list BoundingBox) :
  forall c : RGBA,
    fold_left (Raster.paint p) (flat_map (box_layers s) boxes) c
    = fold_left (Raster.paint p)
                (flat_map (box_layers s)
                          (filter (Raster.box_covers s p) boxes)) c.
Proof.
  induction boxes as [|b rest IH]; intros c; [reflexivity|].
  cbn [flat_map filter]. rewrite fold_left_app.
  destruct (Raster.box_covers s p b) eqn:Hb.
  - cbn [flat_map]. rewrite fold_left_app. apply IH.
  - rewrite paint_uncovered_box by exact Hb. apply IH.
Qed.

Lemma short_permutation {A : Type} (l l' : list A) :
  (List.length l <= 1)%nat -> Permutation l l' -> l = l'.
Proof.
  destruct l as [|a [|b l]]; cbn; intros Hlen Hperm; try lia.
  - symmetry. now apply Permutation_nil.
  - symmetry. now apply Permutation_length_1_inv.
Qed.

(** C4, as amended.  Reordering the detection set leaves the surface size
    unchanged, paints the same rectangles (the bitmap's operations are a
    permutation of one another) and leaves identical the colour of every
    sample point that lies in the painted footprint of at most one box.
    Where the footprints of several boxes overlap, the later box is
    composited over the earlier one and the colour may depend on the order. *)
Theorem reorder_boxes (img : Image) (ct : Container) (cv : Canvas)
        (boxes boxes' : list BoundingBox) :
  has_2d cv = true ->
  Permutation boxes boxes' ->
  exists out out',
    draw (Some img) boxes (mkDOM (Some cv) (Some ct))
    = Returned (tt, mkDOM (Some out) (Some ct))
    /\ draw (Some img) boxes' (mkDOM (Some cv) (Some ct))
       = Returned (tt, mkDOM (Some out') (Some ct))
    /\ canvas_width out = canvas_width out'
    /\ canvas_height out = canvas_height out'
    /\ Permutation (painted out) (painted out')
    /\ (forall p,
          (List.length (filter (Raster.box_covers (scale_of img ct) p) boxes)
           <= 1)%nat ->
          Raster.pixel_at out p = Raster.pixel_at out' p).
Proof.
  intros H2d Hperm.
  exists (frame img ct boxes), (frame img ct boxes').
  split; [now apply draw_frame|]. split; [now apply draw_frame|].
  split; [reflexivity|]. split; [reflexivity|]. split.
  - cbn [frame painted]. constructor. now apply Permutation_flat_map.
  - intros p Hone. unfold Raster.pixel_at.
    change (Raster.on_surface (frame img ct boxes') p)
      with (Raster.on_surface (frame img ct boxes) p).
    destruct (Raster.on_surface (frame img ct boxes) p); [|reflexivity].
    cbn [frame painted fold_left].
    rewrite (paint_covering_boxes _ _ boxes), (paint_covering_boxes _ _ boxes').
    now rewrite (short_permutation _ _ Hone
                   (filter_permutation _ _ _ Hperm)).
Qed.

(** Two overlapping boxes, swapped. *)
Lemma reorder_boxes_witness :
  exists out out',
    draw (Some (mkImage "a" 100 100 white)) [(10, 10, 50, 50); (30, 30, 80, 80)]
         (mkDOM (Some blank_canvas) (Some (mkContainer 100)))
    = Returned (tt, mkDOM (Some out) (Some (mkContainer 100)))
    /\ draw (Some (mkImage "a" 100 100 white))
            [(30, 30, 80, 80); (10, 10, 50, 50)]
            (mkDOM (Some blank_canvas) (Some (mkContainer 100)))
       = Returned (tt, mkDOM (Some out') (Some (mkContainer 100)))
    /\ canvas_width out = canvas_width out'
    /\ canvas_height out = canvas_height out'
    /\ Permutation (painted out) (painted out')
    /\ (forall p,
          (List.length (filter (Raster.box_covers
                             (scale_of (mkImage "a" 100 100 white)
                                       (mkContainer 100)) p)
                          [(10, 10, 50, 50); (30, 30, 80, 80)]%Q)
           <= 1)%nat ->
          Raster.pixel_at out p = Raster.pixel_at out' p).
Proof.
  apply (reorder_boxes (mkImage "a" 100 100 white) (mkContainer 100)
           blank_canvas [(10, 10, 50, 50); (30, 30, 80, 80)]
           [(30, 30, 80, 80); (10, 10, 50, 50)]).
  - reflexivity.
  - apply perm_swap.
Defined.

(** The hypothesis on the sample point is met, e.g., at (15, 12), which only
    the box (10,10,50,50) reaches, and not at (52, 40). *)
Example footprint_counts :
  let s := scale_of (mkImage "a" 100 100 white) (mkContainer 100) in
  let boxes := [(10, 10, 50, 50); (30, 30, 80, 80)] in
  List.length (filter (Raster.box_covers s (15, 12)) boxes) = 1%nat
  /\ List.length (filter (Raster.box_covers s (52, 40)) boxes) = 2%nat.
Proof. split; vm_compute; reflexivity. Qed.

(** C4 as stated fails: on a white 100 x 100 image shown at scale 1, the
    boxes (10,10,50,50) and (30,30,80,80) overlap; the point (52, 40) lies on
    the shadow stroke of the first and inside the fill of the second, and
    its colour differs between the two orders (green channel 141.675 when
    the first box is painted first, 125.025 when it is painted last). *)
Lemma reorder_changes_pixel :
  Permutation [(10, 10, 50, 50); (30, 30, 80, 80)]
              [(30, 30, 80, 80); (10, 10, 50, 50)]
  /\ exists out out',
      draw (Some (mkImage "a" 100 100 white))
           [(10, 10, 50, 50); (30, 30, 80, 80)]
           (mkDOM (Some blank_canvas) (Some (mkContainer 100)))
      = Returned (tt, mkDOM (Some out) (Some (mkContainer 100)))
      /\ draw (Some (mkImage "a" 100 100 white))
              [(30, 30, 80, 80); (10, 10, 50, 50)]
              (mkDOM (Some blank_canvas) (Some (mkContainer 100)))
         = Returned (tt, mkDOM (Some out') (Some (mkContainer 100)))
      /\ green (Raster.pixel_at out (52, 40)) == 141675 # 1000
      /\ green (Raster.pixel_at out' (52, 40)) == 125025 # 1000
      /\ ~ Raster.same_color (Raster.pixel_at out (52, 40))
                             (Raster.pixel_at out' (52, 40)).
Proof.
  split; [apply perm_swap|].
  eexists. eexists.
  split; [vm_compute; reflexivity|]. split; [vm_compute; reflexivity|].
  split; [vm_compute; reflexivity|]. split; [vm_compute; reflexivity|].
  intros (_ & Hg & _). vm_compute in Hg. discriminate.
Qed.

(** ** Image changes while a decode is in flight *)

Section LoaderFacts.

Variable decode : string -> option Decoded.

(** The first element stays first, and stays unfired, as long as its own
    decode does not complete. *)
Lemma first_element_waits (A : string) (evs : list Event) :
  Forall (fun e => e <> Completes 0) evs ->
  forall c : Component,
    nth_error (elements c) 0 = Some (mkPending A false) ->
    nth_error (elements (run decode c evs)) 0 = Some (mkPending A false).
Proof.
  induction 1 as [|e evs He _ IH]; intros c Hc; [exact Hc|].
  cbn [run fold_left]. apply IH.
  destruct e as [source|k]; cbn [step].
  - destruct (String.eqb source (imageSrc c)); [exact Hc|].
    cbn [run_effect elements].
    destruct (elements c); [discriminate|exact Hc].
  - destruct k as [|k]; [congruence|].
    destruct (nth_error (elements c) (S k)) as [[source [|]]|]; try exact Hc.
    destruct (decode source); [|exact Hc].
    cbn [elements]. destruct (elements c); [discriminate|exact Hc].
Qed.

Lemma source_kept (evs : list Event) :
  Forall (fun e => forall s, e <> Supply s) evs ->
  forall c : Component, imageSrc (run decode c evs) = imageSrc c.
Proof.
  induction 1 as [|e evs He _ IH]; intros c; [reflexivity|].
  cbn [run fold_left]. fold (run decode (step decode c e) evs). rewrite IH.
  destruct e as [source|k]; [now contradiction (He source)|].
  cbn [step].
  destruct (nth_error (elements c) k) as [[source [|]]|]; try reflexivity.
  destruct (decode source); reflexivity.
Qed.

End LoaderFacts.

(** C3, as amended.  If source A begins decoding and source B is supplied
    before A's decode completes, then when A's decode later completes the
    displayed image is A's: the decode that completes last is the one
    displayed, whatever happened in between (B's decode may or may not have
    completed).  So when B differs from A and is still the current source,
    the display does not correspond to the current source. *)
Theorem last_completion_wins (decode : string -> option Decoded)
        (A B : string) (dA : Decoded) (between : list Event) :
  decode A = Some dA ->
  Forall (fun e => e <> Completes 0) between ->
  let c := run decode (mount A) (Supply B :: between ++ [Completes 0]) in
  imageObj c = Some (loaded A dA)
  /\ (A <> B -> Forall (fun e => forall s, e <> Supply s) between ->
      imageSrc c = B /\ ~ corresponds c).
Proof.
  intros HdA Hbetween c.
  assert (Hfirst : nth_error
            (elements (run decode (mount A) (Supply B :: between))) 0
            = Some (mkPending A false)).
  { apply first_element_waits; [|reflexivity].
    constructor; [discriminate|exact Hbetween]. }
  assert (Hc : c = step decode (run decode (mount A) (Supply B :: between))
                        (Completes 0)).
  { subst c. unfold run. rewrite app_comm_cons, fold_left_app. reflexivity. }
  assert (Hobj : imageObj c = Some (loaded A dA)).
  { rewrite Hc. cbn [step]. rewrite Hfirst, HdA. reflexivity. }
  split; [exact Hobj|].
  intros HAB Hnosupply.
  assert (Hsrc : imageSrc c = B).
  { rewrite Hc. cbn [step]. rewrite Hfirst, HdA. cbn [imageSrc].
    change (run decode (mount A) (Supply B :: between))
      with (run decode (step decode (mount A) (Supply B)) between).
    rewrite source_kept by exact Hnosupply.
    cbn [step mount run_effect imageSrc].
    destruct (String.eqb B A) eqn:E; [|reflexivity].
    apply String.eqb_eq in E. congruence. }
  split; [exact Hsrc|].
  unfold corresponds. rewrite Hobj, Hsrc. cbn. exact HAB.
Qed.

Lemma last_completion_wins_witness :
  let decode := fun _ : string => Some (mkDecoded 4 3 white) in
  let c := run decode (mount "A")
               (Supply "B" :: [Completes 1] ++ [Completes 0]) in
  imageObj c = Some (loaded "A" (mkDecoded 4 3 white))
  /\ (("A" <> "B")%string ->
      Forall (fun e => forall s, e <> Supply s) [Completes 1] ->
      imageSrc c = "B"%string /\ ~ corresponds c).
Proof.
  apply (last_completion_wins (fun _ : string => Some (mkDecoded 4 3 white))
                              "A" "B" (mkDecoded 4 3 white) [Completes 1]).
  - reflexivity.
  - constructor; [discriminate|constructor].
Defined.

(** C3 as stated fails.  Source "A" starts decoding, "B" is supplied, B's
    decode completes (the display then shows B), and A's decode completes
    afterwards: the component now holds A's image while the current source is
    "B", and the next redraw paints A's image. *)
Lemma stale_decode_displayed :
  let decode := fun _ : string => Some (mkDecoded 4 3 white) in
  let imgA := loaded "A" (mkDecoded 4 3 white) in
  let before := run decode (mount "A") [Supply "B"; Completes 1] in
  let c := run decode (mount "A") [Supply "B"; Completes 1; Completes 0] in
  (imageSrc before = "B"%string /\ corresponds before)
  /\ imageSrc c = "B"%string
  /\ imageObj c = Some imgA
  /\ src imgA = "A"%string
  /\ ~ corresponds c
  /\ exists cv',
       redraw c [] (mkDOM (Some blank_canvas) (Some (mkContainer 2)))
       = Returned (tt, mkDOM (Some cv') (Some (mkContainer 2)))
       /\ painted cv' = [DrawImage imgA 0 0 2 1].
Proof.
  cbv zeta. repeat split.
  - cbn. discriminate.
  - eexists. split; vm_compute; reflexivity.
Qed.

(** ** Mock detections *)

Section MockFacts.

Variable random : nat -> Q.
Hypothesis random_unit : forall n, 0 <= random n < 1.

Lemma mock_box_shape (width height : Q) (n : nat) :
  0 < width -> mock_box_ok width (fst (mock_box random width height n)).
Proof.
  intros Hw. unfold mock_box, Math_random. cbn [fst].
  pose proof (random_unit n) as [H0 H1].
  set (r := random n) in *.
  set (size := r * (width * (1 # 10)) + width * (5 # 100)).
  assert (Ht : 0 < width * (1 # 10)) by lra.
  assert (Hlo : 0 <= r * (width * (1 # 10))) by nra.
  assert (Hhi : r * (width * (1 # 10)) <= width * (1 # 10)) by nra.
  exists (random (S n) * (width - size)),
         (random (S (S n)) * (height - size)), size.
  repeat split; subst size; lra.
Qed.

Lemma mock_loop_shape (width height : Q) (todo : nat) :
  0 < width ->
  forall (acc : list BoundingBox) (n : nat),
    Forall (mock_box_ok width) acc ->
    let out := fst (mock_loop random todo width height acc n) in
    List.length out = (List.length acc + todo)%nat
    /\ Forall (mock_box_ok width) out.
Proof.
  intros Hw. induction todo as [|todo IH]; intros acc n Hacc.
  - cbn. split; [lia|exact Hacc].
  - cbn [mock_loop].
    pose proof (mock_box_shape width height n Hw) as Hb.
    destruct (mock_box random width height n) as [b n'] eqn:E.
    cbn [fst] in Hb.
    specialize (IH (acc ++ [b]) n').
    destruct IH as [Hlen Hall].
    { apply Forall_app. split; [exact Hacc|]. now constructor. }
    split; [|exact Hall].
    rewrite Hlen, length_app. cbn. lia.
Qed.

Lemma mock_count_range (n : nat) :
  (15 <= Math_floor (random n * 10) + 15 <= 24)%Z.
Proof.
  pose proof (random_unit n) as [H0 H1]. unfold Math_floor.
  assert (Hlo : (0 <= Qfloor (random n * 10))%Z).
  { change 0%Z with (Qfloor 0). apply Qfloor_resp_le. lra. }
  assert (Hhi : (Qfloor (random n * 10) < 10)%Z).
  { rewrite Zlt_Qlt. apply Qle_lt_trans with (random n * 10).
    - apply Qfloor_le.
    - change (inject_Z 10) with 10. lra. }
  lia.
Qed.

End MockFacts.

(** C10.  For an image source that decodes to natural width W > 0 and
    height H > 0 (and random numbers in [0, 1)), [generateMockDetections]
    resolves; [log_count] is the length of the list of detections and lies
    between 15 and 24; every box is a square (x, y, x+size, y+size) whose
    side is positive and between 0.05 W and 0.15 W, so x1 < x2 and
    y1 < y2. *)
Theorem mock_detections_shape (decode : string -> option Decoded)
        (random : nat -> Q) (imageSrc : string) (d : Decoded) :
  decode imageSrc = Some d ->
  (0 < decodedWidth d)%Z ->
  (0 < decodedHeight d)%Z ->
  (forall n, 0 <= random n < 1) ->
  exists resp,
    generateMockDetections decode random imageSrc = Some resp
    /\ log_count resp = Z.of_nat (List.length (detections resp))
    /\ (15 <= log_count resp <= 24)%Z
    /\ Forall (mock_box_ok (inject_Z (decodedWidth d))) (detections resp).
Proof.
  intros Hd HW _ Hrnd. unfold generateMockDetections. rewrite Hd.
  unfold Math_random at 1.
  pose proof (mock_count_range random Hrnd O) as Hcount.
  set (count := (Math_floor (random O * 10) + 15)%Z) in *.
  assert (Hw : 0 < inject_Z (decodedWidth d)).
  { change 0 with (inject_Z 0). now rewrite <- Zlt_Qlt. }
  pose proof (mock_loop_shape random Hrnd (inject_Z (decodedWidth d))
                (inject_Z (decodedHeight d)) (Z.to_nat count) Hw [] 1%nat
                (Forall_nil _)) as [Hlen Hall].
  destruct (mock_loop random (Z.to_nat count) (inject_Z (decodedWidth d))
                      (inject_Z (decodedHeight d)) [] 1%nat) as [boxes n'].
  cbn [fst] in Hlen, Hall.
  eexists. split; [reflexivity|]. cbn [log_count detections].
  repeat split; try exact Hall; try lia.
  rewrite Hlen. cbn. lia.
Qed.

Lemma mock_detections_shape_witness :
  let decode := fun _ : string => Some (mkDecoded 1200 800 white) in
  let random := fun n : nat => Qmake (Z.of_nat n mod 10) 10 in
  exists resp,
    generateMockDetections decode random "sample" = Some resp
    /\ log_count resp = Z.of_nat (List.length (detections resp))
    /\ (15 <= log_count resp <= 24)%Z
    /\ Forall (mock_box_ok (inject_Z 1200)) (detections resp).
Proof.
  apply (mock_detections_shape
           (fun _ : string => Some (mkDecoded 1200 800 white))
           (fun n : nat => Qmake (Z.of_nat n mod 10) 10)
           "sample" (mkDecoded 1200 800 white)).
  - reflexivity.
  - cbn. lia.
  - cbn. lia.
  - intros n. unfold Qle, Qlt. cbn.
    pose proof (Z.mod_pos_bound (Z.of_nat n) 10). lia.
Defined.

(** * Further properties of the renderer *)

(** ** Exceptions and the unavailable context *)

(** X1.  [draw] never raises: for every image state, detection list and
    DOM it returns, and it leaves the container and the presence of the
    canvas as they were. *)
Theorem draw_never_throws (imageObj : option Image)
        (boxes : list BoundingBox) (dom : DOM) :
  exists dom',
    draw imageObj boxes dom = Returned (tt, dom')
    /\ containerRef dom' = containerRef dom
    /\ isNull (canvasRef dom') = isNull (canvasRef dom).
Proof.
  destruct imageObj as [img|].
  2:{ exists dom. split; [apply draw_idle; now left|]. now split. }
  destruct dom as [[cv|] [ct|]].
  2-4: eexists; split; [apply draw_idle; cbn; tauto|]; now split.
  destruct (has_2d cv) eqn:H2d.
  - exists (mkDOM (Some (frame img ct boxes)) (Some ct)).
    split; [now apply draw_frame|]. now split.
  - eexists. split.
    + apply draw_idle. right; right; right. now exists cv.
    + now split.
Qed.

(** X2.  When the canvas is bound to a context of another kind, so that
    [getContext('2d')] answers [null], a render call changes nothing: not the
    size of the canvas, not its content. *)
Theorem no_context_noop (img : Image) (boxes : list BoundingBox)
        (cv : Canvas) (ct : Container) :
  mode cv = OtherContext ->
  draw (Some img) boxes (mkDOM (Some cv) (Some ct))
  = Returned (tt, mkDOM (Some cv) (Some ct)).
Proof.
  intros Hmode. apply draw_idle. right; right; right.
  exists cv. split; [reflexivity|]. unfold has_2d. now rewrite Hmode.
Qed.

Lemma no_context_noop_witness :
  draw (Some (mkImage "a" 1200 800 white)) [(100, 100, 300, 300)]
       (mkDOM (Some (mkCanvas 300 150 OtherContext [])) (Some (mkContainer 600)))
  = Returned (tt, mkDOM (Some (mkCanvas 300 150 OtherContext []))
                        (Some (mkContainer 600))).
Proof.
  apply (no_context_noop (mkImage "a" 1200 800 white) [(100, 100, 300, 300)]
                         (mkCanvas 300 150 OtherContext []) (mkContainer 600)).
  reflexivity.
Defined.

(** ** A container that has no width yet *)

Lemma reflect_dimension_zero (default : Z) (q : Q) :
  Qnum q = 0%Z -> reflect_dimension default q = 0%Z.
Proof.
  destruct q as [n d]. cbn [Qnum]. intros ->. reflexivity.
Qed.

(** X3.  With a container of width 0 the surface is 0 x 0 whatever the
    image and the boxes are, and no sample point shows any colour. *)
Theorem zero_width_container (img : Image) (boxes : list BoundingBox)
        (cv : Canvas) (ct : Container) :
  has_2d cv = true ->
  clientWidth ct = 0%Z ->
  exists out,
    draw (Some img) boxes (mkDOM (Some cv) (Some ct))
    = Returned (tt, mkDOM (Some out) (Some ct))
    /\ canvas_width out = 0%Z
    /\ canvas_height out = 0%Z
    /\ forall p, Raster.pixel_at out p = Raster.transparent.
Proof.
  intros H2d HC. exists (frame img ct boxes).
  split; [now apply draw_frame|].
  assert (Ew : surface_width ct = 0%Z).
  { unfold surface_width. now rewrite HC. }
  assert (Eh : surface_height img ct = 0%Z).
  { unfold surface_height, scale_of. apply reflect_dimension_zero.
    rewrite HC. cbn. lia. }
  cbn [frame canvas_width canvas_height]. rewrite Ew, Eh.
  repeat split.
  intros [px py]. unfold Raster.pixel_at, Raster.on_surface.
  cbn [frame canvas_width canvas_height]. rewrite Ew.
  unfold Raster.qlt_bool. change (inject_Z 0) with 0.
  destruct (Qle_bool 0 px); reflexivity.
Qed.

Lemma zero_width_container_witness :
  exists out,
    draw (Some (mkImage "a" 1200 800 white)) [(100, 100, 300, 300)]
         (mkDOM (Some blank_canvas) (Some (mkContainer 0)))
    = Returned (tt, mkDOM (Some out) (Some (mkContainer 0)))
    /\ canvas_width out = 0%Z
    /\ canvas_height out = 0%Z
    /\ forall p, Raster.pixel_at out p = Raster.transparent.
Proof.
  apply (zero_width_container (mkImage "a" 1200 800 white)
           [(100, 100, 300, 300)] blank_canvas (mkContainer 0));
    reflexivity.
Defined.

(** ** Where the overlays are *)

Lemma filter_none {A : Type} (f : A -> bool) (l : list A) :
  (forall a, In a l -> f a = false) -> filter f l = [].
Proof.
  induction l as [|a l IH]; intros H; [reflexivity|].
  cbn. rewrite (H a) by now left. apply IH. intros b Hb. apply H. now right.
Qed.

(** X4.  A sample point that no box reaches (neither stroke nor fill of any
    box covers it) shows exactly what it shows when the same image is
    rendered with no boxes at all: the overlays leave the rest of the image
    untouched. *)
Theorem outside_boxes_base_image (img : Image) (boxes : list BoundingBox)
        (cv : Canvas) (ct : Container) (p : Raster.Point) :
  has_2d cv = true ->
  (forall b, In b boxes -> Raster.box_covers (scale_of img ct) p b = false) ->
  exists out base,
    draw (Some img) boxes (mkDOM (Some cv) (Some ct))
    = Returned (tt, mkDOM (Some out) (Some ct))
    /\ draw (Some img) [] (mkDOM (Some cv) (Some ct))
       = Returned (tt, mkDOM (Some base) (Some ct))
    /\ Raster.pixel_at out p = Raster.pixel_at base p.
Proof.
  intros H2d Hnone.
  exists (frame img ct boxes), (frame img ct []).
  split; [now apply draw_frame|]. split; [now apply draw_frame|].
  unfold Raster.pixel_at.
  change (Raster.on_surface (frame img ct []) p)
    with (Raster.on_surface (frame img ct boxes) p).
  destruct (Raster.on_surface (frame img ct boxes) p); [|reflexivity].
  cbn [frame painted fold_left].
  rewrite paint_covering_boxes, (filter_none _ _ Hnone). reflexivity.
Qed.

Lemma outside_boxes_base_image_witness :
  exists out base,
    draw (Some (mkImage "a" 100 100 white)) [(10, 10, 50, 50)]
         (mkDOM (Some blank_canvas) (Some (mkContainer 100)))
    = Returned (tt, mkDOM (Some out) (Some (mkContainer 100)))
    /\ draw (Some (mkImage "a" 100 100 white)) []
            (mkDOM (Some blank_canvas) (Some (mkContainer 100)))
       = Returned (tt, mkDOM (Some base) (Some (mkContainer 100)))
    /\ Raster.pixel_at out (90, 90) = Raster.pixel_at base (90, 90).
Proof.
  apply (outside_boxes_base_image (mkImage "a" 100 100 white)
           [(10, 10, 50, 50)] blank_canvas (mkContainer 100) (90, 90)).
  - reflexivity.
  - intros b [<-|[]]. vm_compute. reflexivity.
Defined.

Lemma scale_times_width (img : Image) (ct : Container) :
  (0 < naturalWidth img)%Z ->
  inject_Z (naturalWidth img) * scale_of img ct == inject_Z (clientWidth ct).
Proof.
  intros HW. unfold scale_of. apply Qmult_div_r.
  intros E. assert (0 < inject_Z (naturalWidth img)).
  { change 0 with (inject_Z 0). now rewrite <- Zlt_Qlt. }
  lra.
Qed.

(** X5.  If every box lies inside the image (0 <= x1 <= x2 <= W and
    0 <= y1 <= y2 <= H), every stroke and fill is issued on a rectangle of
    non-negative size that lies inside the displayed image: between 0 and
    the container width horizontally, between 0 and H * C / W vertically. *)
Theorem boxes_stay_inside (img : Image) (boxes : list BoundingBox)
        (cv : Canvas) (ct : Container) :
  (0 < naturalWidth img)%Z ->
  (0 <= clientWidth ct)%Z ->
  has_2d cv = true ->
  Forall (inside_image img) boxes ->
  exists out,
    draw (Some img) boxes (mkDOM (Some cv) (Some ct))
    = Returned (tt, mkDOM (Some out) (Some ct))
    /\ forall op x y w h,
         In op (painted out) -> rect_of op = Some (x, y, w, h) ->
         0 <= x /\ 0 <= w /\ x + w <= inject_Z (clientWidth ct)
         /\ 0 <= y /\ 0 <= h
         /\ y + h <= inject_Z (naturalHeight img) * scale_of img ct.
Proof.
  intros HW HC H2d Hin.
  exists (frame img ct boxes). split; [now apply draw_frame|].
  intros op x y w h [<-|Hop] Hrect; [discriminate|].
  apply box_layers_in in Hop. destruct Hop as [[[[x1 y1] x2] y2] [Hb Hop]].
  rewrite Forall_forall in Hin. specialize (Hin _ Hb).
  destruct Hin as (Hx1 & Hx12 & Hx2 & Hy1 & Hy12 & Hy2).
  pose proof (scale_nonneg img ct HW HC) as Hs.
  pose proof (scale_times_width img ct HW) as HWs.
  set (s := scale_of img ct) in *.
  assert (Hxy : (x, y, w, h) = (x1 * s, y1 * s, (x2 - x1) * s, (y2 - y1) * s)).
  { cbn in Hop. destruct Hop as [<-|[<-|[<-|[]]]]; cbn in Hrect; congruence. }
  injection Hxy as -> -> -> ->.
  repeat split; nra.
Qed.

Lemma boxes_stay_inside_witness :
  exists out,
    draw (Some (mkImage "a" 1200 800 white))
         [(100, 100, 300, 300); (0, 0, 1200, 800)]
         (mkDOM (Some blank_canvas) (Some (mkContainer 600)))
    = Returned (tt, mkDOM (Some out) (Some (mkContainer 600)))
    /\ forall op x y w h,
         In op (painted out) -> rect_of op = Some (x, y, w, h) ->
         0 <= x /\ 0 <= w /\ x + w <= inject_Z 600
         /\ 0 <= y /\ 0 <= h
         /\ y + h <= inject_Z 800
                     * scale_of (mkImage "a" 1200 800 white) (mkContainer 600).
Proof.
  apply (boxes_stay_inside (mkImage "a" 1200 800 white)
           [(100, 100, 300, 300); (0, 0, 1200, 800)]
           blank_canvas (mkContainer 600)).
  - cbn. lia.
  - cbn. lia.
  - reflexivity.
  - repeat constructor; cbn; unfold Qle; cbn; lia.
Defined.

(** ** The redraw lifecycle *)

Section LifecycleFacts.

Variable decode : string -> option Decoded.

Lemma sets_image_some (c : Component) (e : Event) :
  sets_image decode c e = true ->
  exists img, imageObj (step decode c e) = Some img.
Proof.
  destruct e as [source|k]; cbn; [discriminate|].
  destruct (nth_error (elements c) k) as [[source [|]]|]; try discriminate.
  destruct (decode source); [|discriminate]. intros _. now eexists.
Qed.

Lemma sets_image_not (c : Component) (e : Event) :
  sets_image decode c e = false ->
  imageObj (step decode c e) = imageObj c.
Proof.
  destruct e as [source|k]; cbn.
  - intros _. now destruct (String.eqb source (imageSrc c)).
  - destruct (nth_error (elements c) k) as [[source [|]]|]; try reflexivity.
    destruct (decode source); [discriminate|reflexivity].
Qed.

Lemma lifecycle_step_in_sync (cv0 : Canvas) (m : Mounted) (e : CanvasEvent) :
  has_2d cv0 = true ->
  in_sync cv0 m ->
  exists m', lifecycle_step decode m e = Returned m' /\ in_sync cv0 m'.
Proof.
  intros H0 (ct & Hct & Hcv).
  destruct m as [c boxes [cvr ctr]]. cbn in Hct, Hcv. subst cvr ctr.
  assert (H2d : has_2d match imageObj c with
                       | Some img => frame img ct boxes
                       | None => cv0
                       end = true).
  { now destruct (imageObj c). }
  destruct e as [ev|boxes'|clientW]; cbn [lifecycle_step component
                                           detections_prop page].
  - destruct (sets_image decode c ev) eqn:Hset.
    + destruct (sets_image_some _ _ Hset) as [img' Himg'].
      unfold redraw_page. rewrite Himg', draw_frame by exact H2d.
      eexists. split; [reflexivity|]. exists ct. cbn. now rewrite Himg'.
    + eexists. split; [reflexivity|]. exists ct. cbn.
      now rewrite (sets_image_not _ _ Hset).
  - unfold redraw_page. destruct (imageObj c) as [img|] eqn:Himg.
    + rewrite draw_frame by exact H2d. eexists. split; [reflexivity|].
      exists ct. cbn. now rewrite Himg.
    + rewrite draw_idle by now left. eexists. split; [reflexivity|].
      exists ct. cbn. now rewrite Himg.
  - unfold redraw_page, set_clientWidth. cbn [canvasRef containerRef].
    destruct (imageObj c) as [img|] eqn:Himg.
    + rewrite draw_frame by exact H2d. eexists. split; [reflexivity|].
      exists (mkContainer clientW). cbn. now rewrite Himg.
    + rewrite draw_idle by now left. eexists. split; [reflexivity|].
      exists (mkContainer clientW). cbn. now rewrite Himg.
Qed.

Lemma lifecycle_in_sync (cv0 : Canvas) (evs : list CanvasEvent) :
  has_2d cv0 = true ->
  forall m, in_sync cv0 m ->
  exists m', lifecycle decode m evs = Returned m' /\ in_sync cv0 m'.
Proof.
  intros H0. induction evs as [|e evs IH]; intros m Hm.
  - now exists m.
  - destruct (lifecycle_step_in_sync cv0 m e H0 Hm) as (m1 & Hstep & Hm1).
    cbn [lifecycle]. rewrite Hstep. now apply IH.
Qed.

End LifecycleFacts.

(** X6.  Whatever sequence of source changes, decode completions, new
    detection lists and window resizes a mounted canvas goes through, no
    redraw raises, and afterwards the page is exactly what one render of the
    image now held, the current detection list and the current container
    width produces on a blank canvas; as long as no image has been decoded,
    the canvas is the one the component was mounted on, untouched. *)
Theorem canvas_in_sync (decode : string -> option Decoded) (source : string)
        (boxes : list BoundingBox) (cv : Canvas) (ct : Container)
        (evs : list CanvasEvent) :
  has_2d cv = true ->
  exists m ct',
    canvas_session decode source boxes (mkDOM (Some cv) (Some ct)) evs
    = Returned m
    /\ containerRef (page m) = Some ct'
    /\ match imageObj (component m) with
       | Some img =>
           draw (Some img) (detections_prop m)
                (mkDOM (Some blank_canvas) (Some ct'))
           = Returned (tt, page m)
       | None => canvasRef (page m) = Some cv
       end.
Proof.
  intros H2d. unfold canvas_session, mount_canvas, redraw_page.
  rewrite draw_idle by now left.
  destruct (lifecycle_in_sync decode cv evs H2d
              (mkMounted (mount source) boxes (mkDOM (Some cv) (Some ct))))
    as (m & Hrun & ct' & Hct & Hcv).
  { exists ct. now split. }
  exists m, ct'. split; [exact Hrun|]. split; [exact Hct|].
  destruct (imageObj (component m)) as [img|]; [|exact Hcv].
  rewrite draw_frame by reflexivity.
  destruct (page m) as [cvr ctr]. cbn in Hct, Hcv. now subst.
Qed.

Lemma canvas_in_sync_witness :
  let decode := fun _ : string => Some (mkDecoded 1200 800 white) in
  exists m ct',
    canvas_session decode "a" []
                   (mkDOM (Some blank_canvas) (Some (mkContainer 600)))
                   [Loader (Completes 0); NewDetections [(100, 100, 300, 300)];
                    WindowResize 300]
    = Returned m
    /\ containerRef (page m) = Some ct'
    /\ match imageObj (component m) with
       | Some img =>
           draw (Some img) (detections_prop m)
                (mkDOM (Some blank_canvas) (Some ct'))
           = Returned (tt, page m)
       | None => canvasRef (page m) = Some blank_canvas
       end.
Proof.
  apply (canvas_in_sync (fun _ : string => Some (mkDecoded 1200 800 white))
           "a" [] blank_canvas (mkContainer 600)
           [Loader (Completes 0); NewDetections [(100, 100, 300, 300)];
            WindowResize 300]).
  reflexivity.
Defined.

(** In that session the canvas ends 300 wide and 200 high, with the image
    and the three layers of the box. *)
Example canvas_session_resized :
  match canvas_session (fun _ : string => Some (mkDecoded 1200 800 white))
          "a" [] (mkDOM (Some blank_canvas) (Some (mkContainer 600)))
          [Loader (Completes 0); NewDetections [(100, 100, 300, 300)];
           WindowResize 300] with
  | Returned m =>
      option_map (fun cv => (canvas_width cv, canvas_height cv,
                             List.length (painted cv)))
                 (canvasRef (page m))
      = Some (300%Z, 200%Z, 4%nat)
  | Thrown _ => False
  end.
Proof. vm_compute. reflexivity. Qed.

(** ** What the loader displays *)

Lemma mark_fired_at (k : nat) :
  forall (l : list Pending) (e : Pending),
    nth_error l k = Some e ->
    nth_error (mark_fired k l) k = Some (mkPending (element_src e) true).
Proof.
  induction k as [|k IH]; intros [|a l] e H; try discriminate.
  - cbn in *. now injection H as ->.
  - cbn in *. now apply IH.
Qed.

Section DisplayedFacts.

Variable decode : string -> option Decoded.

Lemma step_displayed_ok (c : Component) (e : Event) :
  displayed_ok decode c -> displayed_ok decode (step decode c e).
Proof.
  intros Hc. destruct e as [source|k]; cbn [step].
  - destruct (String.eqb source (imageSrc c)); [exact Hc|].
    intros img Himg. cbn in Himg.
    destruct (Hc img Himg) as (k & d & Hk & Hd & Heq).
    exists k, d. split; [|now split]. cbn [run_effect elements].
    rewrite nth_error_app1; [exact Hk|].
    apply nth_error_Some. congruence.
  - destruct (nth_error (elements c) k) as [[source [|]]|] eqn:Hk;
      try exact Hc.
    destruct (decode source) as [d|] eqn:Hd; [|exact Hc].
    intros img Himg. cbn in Himg. injection Himg as <-.
    exists k, d. cbn [elements loaded src].
    split; [|now split].
    now rewrite (mark_fired_at k _ _ Hk).
Qed.

Lemma run_displayed_ok (evs : list Event) :
  forall c, displayed_ok decode c -> displayed_ok decode (run decode c evs).
Proof.
  induction evs as [|e evs IH]; intros c Hc; [exact Hc|].
  cbn [run fold_left]. apply IH. now apply step_displayed_ok.
Qed.

End DisplayedFacts.

(** X7.  After any sequence of source changes and decode completions, the
    image displayed, if there is one, is the decoded image of a source that
    was supplied to the component and whose decode has completed; a source
    that fails to decode is never displayed, so a component whose only
    source fails stays without an image. *)
Theorem displayed_image_was_decoded (decode : string -> option Decoded)
        (A : string) (evs : list Event) :
  let c := run decode (mount A) evs in
  (forall img,
      imageObj c = Some img ->
      exists k d,
        nth_error (elements c) k = Some (mkPending (src img) true)
        /\ decode (src img) = Some d
        /\ img = loaded (src img) d)
  /\ (forall s img, decode s = None -> imageObj c = Some img -> src img <> s).
Proof.
  intros c.
  assert (Hok : displayed_ok decode c).
  { apply run_displayed_ok. intros img Himg. discriminate. }
  split; [exact Hok|].
  intros s img Hs Himg E.
  destruct (Hok img Himg) as (_ & d & _ & Hd & _). congruence.
Qed.

(** * Properties of the page component *)

Ltac split_cases :=
  repeat match goal with
         | |- context [match ?x with _ => _ end] => destruct x eqn:?; cbn
         | |- context [if ?b then _ else _] => destruct b eqn:?; cbn
         end.

Lemma app_run_step (h : App.Hooks) (e : App.Event) (rest : list App.Event) :
  App.run h (e :: rest)
  = (fst (App.run (fst (App.step h e)) rest),
     snd (App.step h e) ++ snd (App.run (fst (App.step h e)) rest)).
Proof.
  cbn [App.run]. destruct (App.step h e) as [h1 started].
  cbn [fst snd]. now destruct (App.run h1 rest).
Qed.

Lemma handleSubmit_keeps (h : App.Hooks) :
  (no_error_while_loading h ->
   no_error_while_loading (fst (App.handleSubmit h)))
  /\ (file_with_image h -> file_with_image (fst (App.handleSubmit h))).
Proof.
  destruct h as [demo [img f res ld err]].
  unfold no_error_while_loading, file_with_image, App.handleSubmit.
  cbn. split; intros H; split_cases; auto.
Qed.

Lemma mode_effect_keeps (old new : App.Hooks) :
  (no_error_while_loading new ->
   no_error_while_loading (fst (App.mode_effect old new)))
  /\ (file_with_image new -> file_with_image (fst (App.mode_effect old new))).
Proof.
  unfold App.mode_effect.
  destruct (Bool.eqb (App.isDemoMode old) (App.isDemoMode new)); [tauto|].
  destruct (App.isDemoMode new && App.truthy (App.image (App.state new))
            && negb (App.isSome (App.results (App.state new)))
            && negb (App.loading (App.state new))
            && negb (App.truthy (App.error (App.state new)))); [|tauto].
  apply handleSubmit_keeps.
Qed.

Lemma step_keeps (h : App.Hooks) (e : App.Event) :
  (no_error_while_loading h -> no_error_while_loading (fst (App.step h e)))
  /\ (file_with_image h -> file_with_image (fst (App.step h e))).
Proof.
  destruct e as [[f|]|f url| |url| | |data|data| | | |]; cbn [App.step];
    try apply handleSubmit_keeps;
    try match goal with
        | |- context [App.mode_effect h ?new] =>
            destruct (mode_effect_keeps h new) as [Hquiet Hfile];
            split; intros H; [apply Hquiet|apply Hfile]
        end;
    destruct h as [demo [img fl res ld err]];
    unfold no_error_while_loading, file_with_image in *; cbn in *;
    try tauto; try congruence; try (split; intros; congruence).
Qed.

Lemma run_keeps (evs : list App.Event) :
  forall h,
    (no_error_while_loading h ->
     no_error_while_loading (fst (App.run h evs)))
    /\ (file_with_image h -> file_with_image (fst (App.run h evs))).
Proof.
  induction evs as [|e evs IH]; intros h; [cbn; tauto|].
  rewrite app_run_step. cbn [fst].
  destruct (step_keeps h e) as [Hq Hf].
  destruct (IH (fst (App.step h e))) as [IHq IHf].
  split; auto.
Qed.

(** ** Invariants of the page state *)

(** X8.  Whatever the user does and whatever the requests answer, the page
    never has an error set while it is loading: every handler that turns
    [loading] on clears [error], and every one that sets [error] turns
    [loading] off. *)
Theorem error_never_while_loading (evs : list App.Event) :
  App.loading (App.state (fst (App.run App.initial evs))) = true ->
  App.error (App.state (fst (App.run App.initial evs))) = None.
Proof.
  apply (run_keeps evs App.initial). intros H. reflexivity.
Qed.

Lemma error_never_while_loading_witness :
  App.error (App.state (fst (App.run App.initial
     [App.UploadRead (App.mkFile "logs.jpg" "image/jpeg") "data:image/jpeg;x";
      App.SubmitClicked; App.PredictFailed; App.SubmitClicked])))
  = None.
Proof.
  apply (error_never_while_loading
     [App.UploadRead (App.mkFile "logs.jpg" "image/jpeg") "data:image/jpeg;x";
      App.SubmitClicked; App.PredictFailed; App.SubmitClicked]).
  reflexivity.
Defined.

Ltac no_such_request :=
  cbn; let Hin := fresh "Hin" in
  intros Hin;
  repeat (destruct Hin as [Hin|Hin]; try discriminate Hin);
  try contradiction.

Lemma handleSubmit_predict (h : App.Hooks) (body : option App.File) :
  In (App.Predict body) (snd (App.handleSubmit h)) ->
  App.isDemoMode h = false
  /\ App.truthy (App.image (App.state h)) = true
  /\ body = App.file (App.state h).
Proof.
  destruct h as [demo [img fl res ld err]]. unfold App.handleSubmit. cbn.
  destruct img as [s|]; [|no_such_request].
  destruct (String.eqb s EmptyString) eqn:E; [no_such_request|].
  destruct demo; [no_such_request|].
  cbn. intros [Hp|[]]. injection Hp as <-. now rewrite E.
Qed.

(** Only a click on the submit button can start a live request; the
    automatic submission of the mode effect runs in demo mode. *)
Lemma step_predict (h : App.Hooks) (e : App.Event) (body : option App.File) :
  In (App.Predict body) (snd (App.step h e)) ->
  e = App.SubmitClicked
  /\ App.isDemoMode h = false
  /\ App.truthy (App.image (App.state h)) = true
  /\ body = App.file (App.state h).
Proof.
  assert (Heffect : forall new,
             ~ In (App.Predict body) (snd (App.mode_effect h new))).
  { intros new. unfold App.mode_effect.
    destruct (Bool.eqb (App.isDemoMode h) (App.isDemoMode new));
      [intros []|].
    destruct (App.isDemoMode new) eqn:Hdemo; cbn [andb]; [|intros []].
    destruct (App.truthy (App.image (App.state new))
              && negb (App.isSome (App.results (App.state new)))
              && negb (App.loading (App.state new))
              && negb (App.truthy (App.error (App.state new))));
      [|intros []].
    intros Hin. apply handleSubmit_predict in Hin. destruct Hin as [Hin _].
    congruence. }
  destruct e as [[f|]|f url| |url| | |data|data| | | |]; cbn [App.step];
    try solve [no_such_request];
    try (intros Hin; now apply Heffect in Hin).
  intros Hin. apply handleSubmit_predict in Hin. tauto.
Qed.

Lemma predict_has_file (h : App.Hooks) (e : App.Event) (body : option App.File) :
  file_with_image h ->
  In (App.Predict body) (snd (App.step h e)) ->
  body <> None.
Proof.
  intros Hfile Hin. apply step_predict in Hin.
  destruct Hin as (_ & _ & Himg & ->).
  unfold file_with_image in Hfile.
  destruct (App.image (App.state h)); [|discriminate].
  destruct (App.file (App.state h)); [discriminate|discriminate].
Qed.

(** X9.  Every request sent to the detection endpoint carries the image
    file: the form is never posted empty, because the image and the file are
    always set together and [handleSubmit] does nothing without an image. *)
Theorem live_request_carries_file (evs : list App.Event)
        (body : option App.File) :
  In (App.Predict body) (snd (App.run App.initial evs)) ->
  body <> None.
Proof.
  assert (Hgen : forall h, file_with_image h ->
                   In (App.Predict body) (snd (App.run h evs)) -> body <> None).
  { induction evs as [|e evs IH]; intros h Hfile; [intros []|].
    rewrite app_run_step. cbn [snd]. intros Hin.
    apply in_app_or in Hin. destruct Hin as [Hin|Hin].
    - now apply (predict_has_file h e).
    - apply (IH (fst (App.step h e))); [|exact Hin].
      now apply step_keeps. }
  apply Hgen. reflexivity.
Qed.

Lemma live_request_carries_file_witness :
  Some (App.mkFile "logs.jpg" "image/jpeg") <> None.
Proof.
  apply (live_request_carries_file
     [App.UploadRead (App.mkFile "logs.jpg" "image/jpeg") "data:image/jpeg;x";
      App.SubmitClicked]
     (Some (App.mkFile "logs.jpg" "image/jpeg"))).
  cbn. left. reflexivity.
Defined.

(** ** When requests start *)

(** X10.  The detection endpoint is contacted only by [handleSubmit] called
    from a click while the page is in live mode and holds an image: no other
    event, and in particular no automatic submission after a change of mode,
    ever starts a live request. *)
Theorem network_only_on_live_submit (h : App.Hooks) (e : App.Event)
        (body : option App.File) :
  In (App.Predict body) (snd (App.step h e)) ->
  e = App.SubmitClicked
  /\ App.isDemoMode h = false
  /\ App.truthy (App.image (App.state h)) = true.
Proof.
  intros Hin. apply step_predict in Hin. tauto.
Qed.

Lemma network_only_on_live_submit_witness :
  App.SubmitClicked = App.SubmitClicked
  /\ App.isDemoMode
       (App.mkHooks false
          (App.mkState (Some "data:image/jpeg;x"%string)
                       (Some (App.mkFile "logs.jpg" "image/jpeg"))
                       None false None)) = false
  /\ App.truthy
       (App.image (App.state
          (App.mkHooks false
             (App.mkState (Some "data:image/jpeg;x"%string)
                          (Some (App.mkFile "logs.jpg" "image/jpeg"))
                          None false None)))) = true.
Proof.
  apply (network_only_on_live_submit
           (App.mkHooks false
              (App.mkState (Some "data:image/jpeg;x"%string)
                           (Some (App.mkFile "logs.jpg" "image/jpeg"))
                           None false None))
           App.SubmitClicked
           (Some (App.mkFile "logs.jpg" "image/jpeg"))).
  cbn. left. reflexivity.
Defined.

(** ** Switching to simulation *)

Lemma eqb_nonempty (s : string) :
  s <> EmptyString -> String.eqb s EmptyString = false.
Proof. intros H. now apply String.eqb_neq. Qed.

(** X11.  After a live request has failed, one click on "Switch to
    Simulation Mode" turns demo mode on, clears the error and, through the
    effect keyed on the mode, starts the simulation on the image at hand:
    the page is loading again without a further click. *)
Theorem retry_after_failure (h : App.Hooks) (imageSrc : string) :
  App.isDemoMode h = false ->
  App.image (App.state h) = Some imageSrc ->
  imageSrc <> EmptyString ->
  App.results (App.state h) = None ->
  App.run h [App.SubmitClicked; App.PredictFailed; App.RetryClicked]
  = (App.mkHooks true
       (App.mkState (Some imageSrc) (App.file (App.state h)) None true None),
     [App.Predict (App.file (App.state h)); App.Simulate imageSrc]).
Proof.
  destruct h as [demo [img fl res ld err]]. cbn.
  intros -> -> Hsrc ->.
  unfold App.handleSubmit, App.mode_effect, App.handleSubmit. cbn.
  repeat (rewrite (eqb_nonempty _ Hsrc); cbn).
  reflexivity.
Qed.

Lemma retry_after_failure_witness :
  App.run (App.mkHooks false
             (App.mkState (Some "data:image/jpeg;x"%string)
                          (Some (App.mkFile "logs.jpg" "image/jpeg"))
                          None false None))
          [App.SubmitClicked; App.PredictFailed; App.RetryClicked]
  = (App.mkHooks true
       (App.mkState (Some "data:image/jpeg;x"%string)
                    (Some (App.mkFile "logs.jpg" "image/jpeg"))
                    None true None),
     [App.Predict (Some (App.mkFile "logs.jpg" "image/jpeg"));
      App.Simulate "data:image/jpeg;x"]).
Proof.
  apply (retry_after_failure
           (App.mkHooks false
              (App.mkState (Some "data:image/jpeg;x"%string)
                           (Some (App.mkFile "logs.jpg" "image/jpeg"))
                           None false None))
           "data:image/jpeg;x"); try reflexivity.
  discriminate.
Defined.

(** X12.  When the page is already in demo mode, neither leaving demo mode
    with the switch nor "Switch to Simulation Mode" starts anything: the
    effect either does not run (the mode did not change) or finds demo mode
    off.  The retry button then only clears the error. *)
Theorem nothing_restarts_in_demo_mode (h : App.Hooks) :
  App.isDemoMode h = true ->
  App.step h App.ModeToggled = (App.mkHooks false (App.state h), [])
  /\ App.step h App.RetryClicked
     = (App.mkHooks true
          (App.mkState (App.image (App.state h)) (App.file (App.state h))
                       (App.results (App.state h)) (App.loading (App.state h))
                       None),
        []).
Proof.
  destruct h as [demo st]. cbn. intros ->. split; reflexivity.
Qed.

Lemma nothing_restarts_in_demo_mode_witness :
  let h := App.mkHooks true
             (App.mkState (Some "data:image/jpeg;x"%string)
                          (Some (App.mkFile "logs.jpg" "image/jpeg"))
                          None false (Some App.connect_error)) in
  App.step h App.ModeToggled = (App.mkHooks false (App.state h), [])
  /\ App.step h App.RetryClicked
     = (App.mkHooks true
          (App.mkState (App.image (App.state h)) (App.file (App.state h))
                       (App.results (App.state h)) (App.loading (App.state h))
                       None),
        []).
Proof.
  apply (nothing_restarts_in_demo_mode
           (App.mkHooks true
              (App.mkState (Some "data:image/jpeg;x"%string)
                           (Some (App.mkFile "logs.jpg" "image/jpeg"))
                           None false (Some App.connect_error)))).
  reflexivity.
Defined.

(** X13.  When the sample image has been read, the page shows it with
    demo mode on.  If the page was in live mode, the simulation starts at
    once (the mode changed, so the effect submits); if it was in demo mode
    already, nothing starts and the user has to click. *)
Theorem sample_image_loaded (h : App.Hooks) (dataUrl : string) :
  dataUrl <> EmptyString ->
  App.step h (App.SampleRead dataUrl)
  = if App.isDemoMode h
    then (App.mkHooks true
            (App.mkState (Some dataUrl) (Some App.sample_file) None false None),
          [])
    else (App.mkHooks true
            (App.mkState (Some dataUrl) (Some App.sample_file) None true None),
          [App.Simulate dataUrl]).
Proof.
  intros Hurl. destruct h as [[|] st]; cbn; unfold App.mode_effect; cbn.
  - reflexivity.
  - unfold App.handleSubmit. cbn.
    repeat (rewrite (eqb_nonempty _ Hurl); cbn).
    reflexivity.
Qed.

Lemma sample_image_loaded_witness :
  App.step App.initial (App.SampleRead "data:image/jpeg;y")
  = if App.isDemoMode App.initial
    then (App.mkHooks true
            (App.mkState (Some "data:image/jpeg;y"%string)
                         (Some App.sample_file) None false None),
          [])
    else (App.mkHooks true
            (App.mkState (Some "data:image/jpeg;y"%string)
                         (Some App.sample_file) None true None),
          [App.Simulate "data:image/jpeg;y"]).
Proof.
  apply (sample_image_loaded App.initial "data:image/jpeg;y").
  discriminate.
Defined.

(** ** Answers that arrive late *)

(** X14.  A result that arrives after the user has reset the page is still
    stored: the state then holds results but no image, so the report shows a
    count while no canvas is rendered.  Nothing ties an answer to the
    request, or to the image, it was computed for. *)
Theorem late_result_after_reset (h : App.Hooks) (imageSrc : string)
        (mockData : DetectionResponse) :
  App.isDemoMode h = true ->
  App.image (App.state h) = Some imageSrc ->
  imageSrc <> EmptyString ->
  let '(h', started) :=
    App.run h [App.SubmitClicked; App.ResetClicked;
               App.SimulationDone mockData] in
  started = [App.Simulate imageSrc]
  /\ App.state h' = App.mkState None None (Some mockData) false None
  /\ App.canvas_props h' = None.
Proof.
  destruct h as [demo [img fl res ld err]]. cbn.
  intros -> -> Hsrc. unfold App.handleSubmit. cbn.
  repeat (rewrite (eqb_nonempty _ Hsrc); cbn).
  repeat split.
Qed.

Lemma late_result_after_reset_witness :
  let '(h', started) :=
    App.run (App.mkHooks true
               (App.mkState (Some "data:image/jpeg;x"%string)
                            (Some (App.mkFile "logs.jpg" "image/jpeg"))
                            None false None))
            [App.SubmitClicked; App.ResetClicked;
             App.SimulationDone (mkDetectionResponse 1 [(0, 0, 10, 10)])] in
  started = [App.Simulate "data:image/jpeg;x"]
  /\ App.state h'
     = App.mkState None None
         (Some (mkDetectionResponse 1 [(0, 0, 10, 10)])) false None
  /\ App.canvas_props h' = None.
Proof.
  apply (late_result_after_reset
           (App.mkHooks true
              (App.mkState (Some "data:image/jpeg;x"%string)
                           (Some (App.mkFile "logs.jpg" "image/jpeg"))
                           None false None))
           "data:image/jpeg;x"
           (mkDetectionResponse 1 [(0, 0, 10, 10)])); try reflexivity.
  discriminate.
Defined.

(** * Further properties of the mock detections *)

Section MockInside.

Variable random : nat -> Q.
Hypothesis random_unit : forall n, 0 <= random n < 1.

Lemma mock_box_in (width height : Q) (n : nat) :
  0 < width ->
  mock_box_inside width height (fst (mock_box random width height n)).
Proof.
  intros Hw. unfold mock_box, Math_random, mock_box_inside. cbn [fst].
  pose proof (random_unit n) as [H0 H1].
  pose proof (random_unit (S n)) as [Hx0 Hx1].
  pose proof (random_unit (S (S n))) as [Hy0 Hy1].
  set (r := random n) in *. set (rx := random (S n)) in *.
  set (ry := random (S (S n))) in *.
  set (size := r * (width * (1 # 10)) + width * (5 # 100)).
  assert (Hlo : (5 # 100) * width <= size) by (subst size; nra).
  assert (Hhi : size < (15 # 100) * width) by (subst size; nra).
  assert (Hroom : 0 < width - size) by lra.
  repeat split.
  - nra.
  - nra.
  - assert (0 < height - size) by lra. nra.
  - assert (0 < height - size) by lra. nra.
Qed.

Lemma mock_loop_forall (P : BoundingBox -> Prop) (width height : Q) :
  (forall n, P (fst (mock_box random width height n))) ->
  forall (todo : nat) (acc : list BoundingBox) (n : nat),
    Forall P acc ->
    Forall P (fst (mock_loop random todo width height acc n)).
Proof.
  intros HP. induction todo as [|todo IH]; intros acc n Hacc; [exact Hacc|].
  cbn [mock_loop]. pose proof (HP n) as Hb.
  destruct (mock_box random width height n) as [b n']. cbn [fst] in Hb.
  apply IH. apply Forall_app. split; [exact Hacc|]. now constructor.
Qed.

Lemma mock_response (decode : string -> option Decoded) (imageSrc : string)
      (d : Decoded) :
  decode imageSrc = Some d ->
  (0 < decodedWidth d)%Z ->
  exists resp,
    generateMockDetections decode random imageSrc = Some resp
    /\ List.length (detections resp) = Z.to_nat (log_count resp)
    /\ (15 <= log_count resp <= 24)%Z
    /\ Forall (mock_box_inside (inject_Z (decodedWidth d))
                               (inject_Z (decodedHeight d)))
              (detections resp).
Proof.
  intros Hd HW. unfold generateMockDetections. rewrite Hd.
  unfold Math_random at 1.
  pose proof (mock_count_range random random_unit O) as Hcount.
  set (count := (Math_floor (random O * 10) + 15)%Z) in *.
  assert (Hw : 0 < inject_Z (decodedWidth d)).
  { change 0 with (inject_Z 0). now rewrite <- Zlt_Qlt. }
  pose proof (mock_loop_shape random random_unit (inject_Z (decodedWidth d))
                (inject_Z (decodedHeight d)) (Z.to_nat count) Hw [] 1%nat
                (Forall_nil _)) as [Hlen _].
  pose proof (mock_loop_forall _ (inject_Z (decodedWidth d))
                (inject_Z (decodedHeight d))
                (fun n => mock_box_in _ _ n Hw)
                (Z.to_nat count) [] 1%nat (Forall_nil _)) as Hall.
  destruct (mock_loop random (Z.to_nat count) (inject_Z (decodedWidth d))
                      (inject_Z (decodedHeight d)) [] 1%nat) as [boxes n'].
  cbn [fst] in Hlen, Hall.
  eexists. split; [reflexivity|]. cbn [log_count detections].
  repeat split; try exact Hall; try lia. exact Hlen.
Qed.

End MockInside.

(** X15.  Every mock box lies inside the image horizontally
    (0 <= x1 and x2 < W).  Vertically it does (0 <= y1 and y2 < H) when the
    image is at least 0.15 times as high as it is wide; for a flatter image
    the box side can exceed the height, and the code has no clamp. *)
Theorem mock_boxes_inside_image (decode : string -> option Decoded)
        (random : nat -> Q) (imageSrc : string) (d : Decoded) :
  decode imageSrc = Some d ->
  (0 < decodedWidth d)%Z ->
  (forall n, 0 <= random n < 1) ->
  exists resp,
    generateMockDetections decode random imageSrc = Some resp
    /\ Forall (fun b : BoundingBox =>
                 let '(x1, y1, x2, y2) := b in
                 0 <= x1 /\ x2 < inject_Z (decodedWidth d)
                 /\ ((15 # 100) * inject_Z (decodedWidth d)
                     <= inject_Z (decodedHeight d) ->
                     0 <= y1 /\ y2 < inject_Z (decodedHeight d)))
              (detections resp).
Proof.
  intros Hd HW Hrnd.
  destruct (mock_response random Hrnd decode imageSrc d Hd HW)
    as (resp & Hgen & _ & _ & Hall).
  exists resp. split; [exact Hgen|exact Hall].
Qed.

Lemma mock_boxes_inside_image_witness :
  let decode := fun _ : string => Some (mkDecoded 1200 800 white) in
  let random := fun n : nat => Qmake (Z.of_nat n mod 10) 10 in
  exists resp,
    generateMockDetections decode random "sample" = Some resp
    /\ Forall (fun b : BoundingBox =>
                 let '(x1, y1, x2, y2) := b in
                 0 <= x1 /\ x2 < inject_Z 1200
                 /\ ((15 # 100) * inject_Z 1200 <= inject_Z 800 ->
                     0 <= y1 /\ y2 < inject_Z 800))
              (detections resp).
Proof.
  apply (mock_boxes_inside_image
           (fun _ : string => Some (mkDecoded 1200 800 white))
           (fun n : nat => Qmake (Z.of_nat n mod 10) 10)
           "sample" (mkDecoded 1200 800 white)).
  - reflexivity.
  - cbn. lia.
  - intros n. unfold Qle, Qlt. cbn.
    pose proof (Z.mod_pos_bound (Z.of_nat n) 10). lia.
Defined.

(** A flat image, 1000 x 40: the first mock box is 50 wide and high, and
    its lower edge is below the image. *)
Example mock_box_below_flat_image :
  match generateMockDetections (fun _ => Some (mkDecoded 1000 40 white))
                               (fun _ => 0) "flat" with
  | Some resp =>
      match detections resp with
      | (_, y1, _, y2) :: _ => y2 - y1 == 50 /\ inject_Z 40 < y2
      | [] => False
      end
  | None => False
  end.
Proof. vm_compute. split; reflexivity. Qed.

(** * From the simulation to the canvas *)

Lemma box_layers_count (s : Q) (boxes : list BoundingBox) :
  List.length (flat_map (box_layers s) boxes) = (3 * List.length boxes)%nat.
Proof.
  induction boxes as [|[[[x1 y1] x2] y2] rest IH]; [reflexivity|].
  cbn [flat_map]. rewrite length_app, IH. cbn. lia.
Qed.

(** X16.  In demo mode the count reported is the number of boxes drawn:
    a submit starts the simulation on the image at hand; when its answer is
    stored, the canvas receives the image and the answer's boxes, and the
    render of the decoded image paints the base image and three layers for
    each of the [log_count] boxes. *)
Theorem simulated_count_is_drawn (decode : string -> option Decoded)
        (random : nat -> Q) (h : App.Hooks) (imageSrc : string) (d : Decoded)
        (cv : Canvas) (ct : Container) :
  App.isDemoMode h = true ->
  App.image (App.state h) = Some imageSrc ->
  imageSrc <> EmptyString ->
  decode imageSrc = Some d ->
  (0 < decodedWidth d)%Z ->
  (forall n, 0 <= random n < 1) ->
  has_2d cv = true ->
  exists resp h1 h2 out,
    App.step h App.SubmitClicked = (h1, [App.Simulate imageSrc])
    /\ generateMockDetections decode random imageSrc = Some resp
    /\ App.step h1 (App.SimulationDone resp) = (h2, [])
    /\ App.results (App.state h2) = Some resp
    /\ App.canvas_props h2 = Some (imageSrc, detections resp)
    /\ draw (Some (loaded imageSrc d)) (detections resp)
            (mkDOM (Some cv) (Some ct))
       = Returned (tt, mkDOM (Some out) (Some ct))
    /\ Z.of_nat (List.length (painted out)) = (1 + 3 * log_count resp)%Z.
Proof.
  intros Hdemo Himg Hsrc Hd HW Hrnd H2d.
  destruct (mock_response random Hrnd decode imageSrc d Hd HW)
    as (resp & Hgen & Hlen & Hcount & _).
  destruct h as [demo [img fl res ld err]]. cbn in Hdemo, Himg. subst demo img.
  eexists resp, _, _, (frame (loaded imageSrc d) ct (detections resp)).
  split.
  { cbn. unfold App.handleSubmit. cbn. rewrite (eqb_nonempty _ Hsrc).
    reflexivity. }
  split; [exact Hgen|].
  split; [reflexivity|]. split; [reflexivity|].
  split.
  { unfold App.canvas_props. cbn. now rewrite (eqb_nonempty _ Hsrc). }
  split; [now apply draw_frame|].
  cbn [frame painted List.length]. rewrite box_layers_count, Hlen. lia.
Qed.

Lemma simulated_count_is_drawn_witness :
  let decode := fun _ : string => Some (mkDecoded 1200 800 white) in
  let random := fun n : nat => Qmake (Z.of_nat n mod 10) 10 in
  let h := App.mkHooks true
             (App.mkState (Some "sample"%string) (Some App.sample_file)
                          None false None) in
  exists resp h1 h2 out,
    App.step h App.SubmitClicked = (h1, [App.Simulate "sample"])
    /\ generateMockDetections decode random "sample" = Some resp
    /\ App.step h1 (App.SimulationDone resp) = (h2, [])
    /\ App.results (App.state h2) = Some resp
    /\ App.canvas_props h2 = Some ("sample"%string, detections resp)
    /\ draw (Some (loaded "sample" (mkDecoded 1200 800 white)))
            (detections resp)
            (mkDOM (Some blank_canvas) (Some (mkContainer 600)))
       = Returned (tt, mkDOM (Some out) (Some (mkContainer 600)))
    /\ Z.of_nat (List.length (painted out)) = (1 + 3 * log_count resp)%Z.
Proof.
  apply (simulated_count_is_drawn
           (fun _ : string => Some (mkDecoded 1200 800 white))
           (fun n : nat => Qmake (Z.of_nat n mod 10) 10)
           (App.mkHooks true
              (App.mkState (Some "sample"%string) (Some App.sample_file)
                           None false None))
           "sample" (mkDecoded 1200 800 white) blank_canvas (mkContainer 600)).
  - reflexivity.
  - reflexivity.
  - discriminate.
  - reflexivity.
  - cbn. lia.
  - intros n. unfold Qle, Qlt. cbn.
    pose proof (Z.mod_pos_bound (Z.of_nat n) 10). lia.
  - reflexivity.
Defined.
